(** * IPO notifier: a shallow embedding of [main.py] and [discord.py]

    The program polls a JSON feed, keeps the IPO entries whose [ipoId] is
    above a persisted watermark, renders up to three of them as Discord
    embeds, posts them to a webhook and stores the new watermark.

    Python values that come out of [json.load] / [response.json()] are
    modelled by the type [json]; text is a Rocq [string] holding the bytes
    of its UTF-8 encoding, and JSON numbers are integers (fractions and
    exponents, which Python reads as floats, are outside the model).
    [int] reads text as the interpreter does, by code points; changes of
    case are those of ASCII letters.  Python exceptions are values of [exn]
    carried by [result]; logging, HTTP traffic and the state file are
    events and state of an explicit [world]. *)

From Stdlib Require Import ZArith NArith List String Ascii Bool Lia Arith.
From Stdlib Require Import DecimalString DecimalPos.
Import ListNotations.

Open Scope string_scope.
Open Scope Z_scope.

(** ** Python values, exceptions and built-ins *)

Module Py.

#[local] Set Warnings "-register-all".

Inductive json : Type :=
| JNull
| JBool (b : bool)
| JInt (n : Z)
| JStr (s : string)
| JList (items : list json)
| JDict (pairs : list (string * json)).

(** The exception classes the two source files can meet. *)
Inductive exn : Type :=
| KeyError (key : string)
| TypeError
| AttributeError (attr : string)
| ValueError
| FileNotFoundError
| JSONDecodeError (msg : string)
| HTTPStatusError (status_code : Z) (text : string)
| RequestError (url : string)
| OtherError (name : string).

Inductive result (A : Type) : Type :=
| Ok (a : A)
| Raise (e : exn).
Arguments Ok {A} a.
Arguments Raise {A} e.

Definition rbind {A B} (c : result A) (k : A -> result B) : result B :=
  match c with
  | Ok a => k a
  | Raise e => Raise e
  end.

Notation "x <-- c ;; k" := (rbind c (fun x => k))
  (at level 61, c at next level, right associativity).

Fixpoint mapM {A B} (f : A -> result B) (l : list A) : result (list B) :=
  match l with
  | [] => Ok []
  | a :: l' => b <-- f a ;; bs <-- mapM f l' ;; Ok (b :: bs)
  end.

Fixpoint filterM {A} (f : A -> result bool) (l : list A) : result (list A) :=
  match l with
  | [] => Ok []
  | a :: l' =>
      keep <-- f a ;; rest <-- filterM f l' ;;
      Ok (if keep then a :: rest else rest)
  end.

(** *** Dictionaries *)

Fixpoint lookup (k : string) (d : list (string * json)) : option json :=
  match d with
  | [] => None
  | (k', v) :: d' => if String.eqb k k' then Some v else lookup k d'
  end.

(** [x.get(k, default)]: only a dict has the method. *)
Definition dict_get (x : json) (k : string) (default : json) : result json :=
  match x with
  | JDict d => Ok (match lookup k d with Some v => v | None => default end)
  | _ => Raise (AttributeError "get")
  end.

(** [x[k]] for a string key [k]. *)
Definition getitem (x : json) (k : string) : result json :=
  match x with
  | JDict d =>
      match lookup k d with
      | Some v => Ok v
      | None => Raise (KeyError k)
      end
  | _ => Raise TypeError
  end.

(** *** Truth value, [len], iteration *)

Definition truthy (x : json) : bool :=
  match x with
  | JNull => false
  | JBool b => b
  | JInt n => negb (n =? 0)
  | JStr s => negb (String.eqb s "")
  | JList l => match l with [] => false | _ => true end
  | JDict d => match d with [] => false | _ => true end
  end.

Definition py_len (x : json) : result nat :=
  match x with
  | JStr s => Ok (String.length s)
  | JList l => Ok (List.length l)
  | JDict d => Ok (List.length d)
  | _ => Raise TypeError
  end.

(** The items a [for] loop or a comprehension sees. *)
Definition py_iter (x : json) : result (list json) :=
  match x with
  | JList l => Ok l
  | JDict d => Ok (map (fun kv => JStr (fst kv)) d)
  | JStr s => Ok (map (fun c => JStr (String c "")) (list_ascii_of_string s))
  | _ => Raise TypeError
  end.

(** *** Comparisons *)

(** [bool] is a subclass of [int]. *)
Definition as_num (x : json) : option Z :=
  match x with
  | JInt n => Some n
  | JBool b => Some (Z.b2z b)
  | _ => None
  end.

Fixpoint py_eq (x y : json) {struct x} : bool :=
  match x, y with
  | JNull, JNull => true
  | JBool a, JBool b => Bool.eqb a b
  | JBool a, JInt n => Z.b2z a =? n
  | JInt n, JBool a => n =? Z.b2z a
  | JInt a, JInt b => a =? b
  | JStr a, JStr b => String.eqb a b
  | JList a, JList b =>
      (fix go (a b : list json) : bool :=
         match a, b with
         | [], [] => true
         | u :: a', v :: b' => py_eq u v && go a' b'
         | _, _ => false
         end) a b
  | JDict a, JDict b =>
      Nat.eqb (List.length a) (List.length b) &&
      (fix go (a : list (string * json)) : bool :=
         match a with
         | [] => true
         | (k, u) :: a' =>
             match lookup k b with
             | Some v => py_eq u v
             | None => false
             end && go a'
         end) a
  | _, _ => false
  end.

(** [x > y]: numbers with numbers, strings with strings, lists with lists
    (first differing position decides); anything else is a [TypeError]. *)
Fixpoint py_gt (x y : json) {struct x} : result bool :=
  match x, y with
  | JStr a, JStr b => Ok (String.ltb b a)
  | JList a, JList b =>
      (fix go (a b : list json) : result bool :=
         match a, b with
         | [], _ => Ok false
         | _ :: _, [] => Ok true
         | u :: a', v :: b' => if py_eq u v then go a' b' else py_gt u v
         end) a b
  | _, _ =>
      match as_num x, as_num y with
      | Some a, Some b => Ok (b <? a)
      | _, _ => Raise TypeError
      end
  end.

(** [max(l)]: the first item, replaced by each later item that is greater. *)
Fixpoint max_from (best : json) (l : list json) : result json :=
  match l with
  | [] => Ok best
  | item :: l' =>
      gt <-- py_gt item best ;;
      max_from (if gt then item else best) l'
  end.

Definition py_max (l : list json) : result json :=
  match l with
  | [] => Raise ValueError
  | x :: l' => max_from x l'
  end.

(** *** Text *)

Definition nl : string := String "010" "".

Definition is_upper (c : ascii) : bool :=
  (65 <=? nat_of_ascii c)%nat && (nat_of_ascii c <=? 90)%nat.
Definition is_lower (c : ascii) : bool :=
  (97 <=? nat_of_ascii c)%nat && (nat_of_ascii c <=? 122)%nat.
Definition to_lower (c : ascii) : ascii :=
  if is_upper c then ascii_of_nat (nat_of_ascii c + 32) else c.
Definition to_upper (c : ascii) : ascii :=
  if is_lower c then ascii_of_nat (nat_of_ascii c - 32) else c.

Fixpoint lower (s : string) : string :=
  match s with
  | EmptyString => EmptyString
  | String c s' => String (to_lower c) (lower s')
  end.

Definition capitalize (s : string) : string :=
  match s with
  | EmptyString => EmptyString
  | String c s' => String (to_upper c) (lower s')
  end.

(** [x.lower()] and [x.capitalize()]: methods of [str] only. *)
Definition str_lower (x : json) : result string :=
  match x with
  | JStr s => Ok (lower s)
  | _ => Raise (AttributeError "lower")
  end.

Definition str_capitalize (x : json) : result string :=
  match x with
  | JStr s => Ok (capitalize s)
  | _ => Raise (AttributeError "capitalize")
  end.

(** Decimal rendering of an integer, as [str(n)] gives it. *)
Definition str_of_Z (n : Z) : string := NilZero.string_of_int (Z.to_int n).

Definition hex_digit (n : nat) : ascii :=
  ascii_of_nat (if (n <? 10)%nat then 48 + n else 87 + n).

(** One character of [repr(s)] with quote character [q]. *)
Definition repr_char (q c : ascii) : string :=
  let n := nat_of_ascii c in
  if Ascii.eqb c "\" then "\\"
  else if Ascii.eqb c q then String "\" (String q "")
  else if (n =? 9)%nat then "\t"
  else if (n =? 10)%nat then "\n"
  else if (n =? 13)%nat then "\r"
  else if ((n <? 32) || (n =? 127))%nat
       then String "\" (String "x" (String (hex_digit (n / 16))
                                      (String (hex_digit (n mod 16)) "")))
  else String c "".

Fixpoint has_char (c : ascii) (s : string) : bool :=
  match s with
  | EmptyString => false
  | String c' s' => Ascii.eqb c c' || has_char c s'
  end.

Definition dquote : ascii := "034"%char.

(** [repr(s)]: double quotes only when [s] has a single quote and no
    double quote. *)
Definition repr_str (s : string) : string :=
  let q : ascii :=
    if has_char "'" s && negb (has_char dquote s) then dquote else "'"%char in
  String q (String.concat "" (map (repr_char q) (list_ascii_of_string s)))
    ++ String q "".

Fixpoint py_repr (x : json) : string :=
  match x with
  | JNull => "None"
  | JBool true => "True"
  | JBool false => "False"
  | JInt n => str_of_Z n
  | JStr s => repr_str s
  | JList l => "[" ++ String.concat ", " (map py_repr l) ++ "]"
  | JDict d =>
      "{" ++ String.concat ", "
               (map (fun kv => repr_str (fst kv) ++ ": " ++ py_repr (snd kv)) d)
          ++ "}"
  end.

(** [str(x)], which is what an f-string field [{x}] inserts. *)
Definition py_str (x : json) : string :=
  match x with
  | JStr s => s
  | _ => py_repr x
  end.

(** *** [int(s)] for a string [s] *)

(** Text is held as the bytes of its UTF-8 encoding, and [int] looks at
    code points.  Bytes that are no UTF-8 encoding, which no Python text
    has, decode to U+FFFD. *)
Definition is_cont (b : N) : bool := ((128 <=? b) && (b <? 192))%N.

Definition REPLACEMENT : N := 65533.

Fixpoint utf8_decode (l : list ascii) : list N :=
  match l with
  | [] => []
  | c0 :: l1 =>
      let b0 := N_of_ascii c0 in
      if (b0 <? 128)%N then b0 :: utf8_decode l1
      else
        match l1 with
        | c1 :: l2 =>
            let b1 := N_of_ascii c1 in
            if ((194 <=? b0) && (b0 <? 224))%N && is_cont b1
            then ((b0 - 192) * 64 + (b1 - 128))%N :: utf8_decode l2
            else
              match l2 with
              | c2 :: l3 =>
                  let b2 := N_of_ascii c2 in
                  if ((224 <=? b0) && (b0 <? 240))%N && is_cont b1 && is_cont b2
                  then ((b0 - 224) * 4096 + (b1 - 128) * 64 + (b2 - 128))%N
                       :: utf8_decode l3
                  else
                    match l3 with
                    | c3 :: l4 =>
                        let b3 := N_of_ascii c3 in
                        if ((240 <=? b0) && (b0 <? 245))%N
                           && is_cont b1 && is_cont b2 && is_cont b3
                        then ((b0 - 240) * 262144 + (b1 - 128) * 4096
                              + (b2 - 128) * 64 + (b3 - 128))%N
                             :: utf8_decode l4
                        else REPLACEMENT :: utf8_decode l1
                    | [] => REPLACEMENT :: utf8_decode l1
                    end
              | [] => REPLACEMENT :: utf8_decode l1
              end
        | [] => [REPLACEMENT]
        end
  end.

(** The code points of the digit zero of every script with decimal digits
    (Unicode 14, general category Nd); the nine code points after each are
    its digits one to nine. *)
Definition decimal_zeros : list N :=
  [48; 1632; 1776; 1984; 2406; 2534; 2662; 2790; 2918; 3046; 3174; 3302;
   3430; 3558; 3664; 3792; 3872; 4160; 4240; 6112; 6160; 6470; 6608; 6784;
   6800; 6992; 7088; 7232; 7248; 42528; 43216; 43264; 43472; 43504; 43600;
   44016; 65296; 66720; 68912; 69734; 69872; 69942; 70096; 70384; 70736;
   70864; 71248; 71360; 71472; 71904; 72016; 72784; 73040; 73120; 92768;
   92864; 93008; 120782; 120792; 120802; 120812; 120822; 123200; 123632;
   125264; 130032]%N.

(** The value of the code point [c] as a decimal digit, when it is one. *)
Definition unicode_decimal (c : N) : option N :=
  match find (fun z => (z <=? c) && (c <? z + 10))%N decimal_zeros with
  | Some z => Some (c - z)%N
  | None => None
  end.

(** The white space outside ASCII. *)
Definition unicode_space (c : N) : bool :=
  existsb (N.eqb c)
    [133; 160; 5760; 8192; 8193; 8194; 8195; 8196; 8197; 8198; 8199; 8200;
     8201; 8202; 8232; 8233; 8239; 8287; 12288]%N.

(** What [int] makes of one code point before it parses: a character below
    127 stays, other white space becomes a space, a decimal digit of any
    script becomes the ASCII digit of its value, and anything else becomes a
    character no number has. *)
Definition int_char (c : N) : ascii :=
  if (c <? 127)%N then ascii_of_N c
  else if unicode_space c then " "%char
  else match unicode_decimal c with
       | Some d => ascii_of_N (48 + d)
       | None => "?"%char
       end.

Definition is_space (c : ascii) : bool :=
  let n := nat_of_ascii c in ((9 <=? n) && (n <=? 13) || (n =? 32))%nat.

Definition is_digit (c : ascii) : bool :=
  (48 <=? nat_of_ascii c)%nat && (nat_of_ascii c <=? 57)%nat.

Definition digit_val (c : ascii) : Z := Z.of_nat (nat_of_ascii c - 48).

Fixpoint drop_spaces (l : list ascii) : list ascii :=
  match l with
  | c :: l' => if is_space c then drop_spaces l' else l
  | [] => []
  end.

Definition strip (l : list ascii) : list ascii :=
  rev (drop_spaces (rev (drop_spaces l))).

(** Digits, with single underscores allowed between two digits. *)
Fixpoint parse_digits (acc : Z) (after_digit : bool) (l : list ascii)
  : option Z :=
  match l with
  | [] => if after_digit then Some acc else None
  | c :: l' =>
      if is_digit c then parse_digits (10 * acc + digit_val c) true l'
      else if Ascii.eqb c "_" && after_digit then parse_digits acc false l'
      else None
  end.

(** The literal: white space around an optional sign and the digits. *)
Definition int_literal (l : list ascii) : option Z :=
  match strip l with
  | c :: ds =>
      if Ascii.eqb c "-" then option_map Z.opp (parse_digits 0 false ds)
      else if Ascii.eqb c "+" then parse_digits 0 false ds
      else parse_digits 0 false (c :: ds)
  | [] => None
  end.

(** [sys.get_int_max_str_digits()], as the interpreter starts with it. *)
Definition int_max_str_digits : Z := 4300.

Definition count_digits (l : list ascii) : Z :=
  Z.of_nat (List.length (filter is_digit l)).

(** [None] stands for the [ValueError] of [int(s)], which a text with more
    than [int_max_str_digits] digits raises as well. *)
Definition py_int (s : string) : option Z :=
  let l := map int_char (utf8_decode (list_ascii_of_string s)) in
  if count_digits l <=? int_max_str_digits then int_literal l else None.

(** *** ["{:,}".format(n)] *)

(** Over the digits from the least significant one: [k] digits are still
    to be written before the next separator. *)
Fixpoint insert_sep (k : nat) (l : list ascii) : list ascii :=
  match l with
  | [] => []
  | d :: l' =>
      match k with
      | O => ","%char :: d :: insert_sep 2 l'
      | S k' => d :: insert_sep k' l'
      end
  end.

Definition group3 (digits : list ascii) : list ascii :=
  rev (insert_sep 3 (rev digits)).

Definition digits_of (n : Z) : list ascii :=
  list_ascii_of_string (str_of_Z (Z.abs n)).

Definition format_comma (n : Z) : string :=
  (if n <? 0 then "-" else "") ++
  string_of_list_ascii (group3 (digits_of n)).

(** ["{:,}".format(n)]: the grouped digits, and [None] for the [ValueError]
    that an integer of more than [int_max_str_digits] digits raises. *)
Definition py_format_comma (n : Z) : option string :=
  if Z.of_nat (List.length (digits_of n)) <=? int_max_str_digits
  then Some (format_comma n) else None.

End Py.
Import Py.

(** ** [main.py]: number formatting *)

(** [format_number]: [int(number)] accepts a string, an [int] or a [bool];
    only [ValueError] is caught, whether [int] or the formatting raises it,
    and then the argument itself is returned; another argument raises
    [TypeError] to the caller. *)
Definition format_number (number : json) : result json :=
  let formatted (n : Z) : result json :=
    match py_format_comma n with
    | Some text => Ok (JStr text)
    | None => Ok number
    end in
  match number with
  | JStr s =>
      match py_int s with
      | Some n => formatted n
      | None => Ok number
      end
  | JInt n => formatted n
  | JBool b => formatted (Z.b2z b)
  | _ => Raise TypeError
  end.

(** ** [main.py]: rendering the notification payload *)

Definition COLOR_OPEN : Z := 65280.       (* 0x00FF00 *)
Definition COLOR_OTHER : Z := 16711680.   (* 0xFF0000 *)

Definition field (name : string) (value : json) : json :=
  JDict [("name", JStr name); ("value", value); ("inline", JBool true)].

(** The body of the loop of [create_discord_embed] for one entry; [stamp]
    is what [datetime.now(...).isoformat()] gives when it is reached. *)
Definition embed_for (stamp : string) (ipo : json) : result json :=
  status_v <-- getitem ipo "status" ;;
  status <-- str_lower status_v ;;
  let color := if String.eqb status "open" then COLOR_OPEN else COLOR_OTHER in
  sectorName <-- getitem ipo "sectorName" ;;
  shareType_v <-- getitem ipo "shareType" ;;
  shareType <-- str_capitalize shareType_v ;;
  rating <-- getitem ipo "rating" ;;
  let description :=
    "**Sector**: " ++ py_str sectorName ++ nl ++
    "**Share Type**: " ++ shareType ++ nl ++
    "**Rating**: " ++ py_str (if truthy rating then rating else JStr "N/A") in
  companyName <-- getitem ipo "companyName" ;;
  stockSymbol <-- getitem ipo "stockSymbol" ;;
  status' <-- getitem ipo "status" ;;
  pricePerUnit <-- getitem ipo "pricePerUnit" ;;
  units_v <-- getitem ipo "units" ;;
  units <-- format_number units_v ;;
  minUnits_v <-- getitem ipo "minUnits" ;;
  minUnits <-- format_number minUnits_v ;;
  maxUnits_v <-- getitem ipo "maxUnits" ;;
  maxUnits <-- format_number maxUnits_v ;;
  openingDateAD <-- getitem ipo "openingDateAD" ;;
  openingDateBS <-- getitem ipo "openingDateBS" ;;
  closingDateAD <-- getitem ipo "closingDateAD" ;;
  closingDateBS <-- getitem ipo "closingDateBS" ;;
  closingTime <-- getitem ipo "closingDateClosingTime" ;;
  shareRegistrar <-- getitem ipo "shareRegistrar" ;;
  totalAmount_v <-- getitem ipo "totalAmount" ;;
  totalAmount <-- format_number totalAmount_v ;;
  Ok (JDict
    [("title", JStr (py_str companyName ++ " (" ++ py_str stockSymbol ++ ")"));
     ("description", JStr description);
     ("color", JInt color);
     ("fields", JList
        [field "📊 Status" (JStr (py_str status'));
         field "💵 Price per Unit" (JStr ("NPR " ++ py_str pricePerUnit));
         field "📈 Total Units" units;
         field "🔢 Min/Max Units"
               (JStr (py_str minUnits ++ " / " ++ py_str maxUnits));
         field "📅 Opening Date"
               (JStr (py_str openingDateAD ++ " (" ++ py_str openingDateBS ++ ")"));
         field "🕒 Closing Date"
               (JStr (py_str closingDateAD ++ " (" ++ py_str closingDateBS ++
                      ") at " ++ py_str closingTime));
         field "🏢 Share Registrar" shareRegistrar;
         field "💰 Total Amount" (JStr ("NPR " ++ py_str totalAmount))]);
     ("thumbnail",
      JDict [("url", JStr "https://www.svgrepo.com/show/483222/stock-market.svg")]);
     ("footer",
      JDict [("text", JStr "Reported by IPO Notifier Bot | @dev-sandip")]);
     ("timestamp", JStr stamp)]).

(** The loop [for ipo in ...: embeds.append(embed)]; [clock i] is the time
    read while the entry at position [i] is rendered. *)
Fixpoint embeds_from (clock : nat -> string) (i : nat) (l : list json)
  : result (list json) :=
  match l with
  | [] => Ok []
  | ipo :: l' =>
      embed <-- embed_for (clock i) ipo ;;
      rest <-- embeds_from clock (S i) l' ;;
      Ok (embed :: rest)
  end.

Definition payload_of (embeds : list json) : json :=
  JDict [("username", JStr "IPO Notifier");
         ("avatar_url", JStr "https://img.icons8.com/fluency/48/000000/bullish.png");
         ("embeds", JList embeds)].

Definition create_discord_embed (clock : nat -> string) (ipo_data : list json)
  : result json :=
  embeds <-- embeds_from clock 0 (firstn 3 ipo_data) ;;
  Ok (payload_of embeds).

(** ** The world: state file, log and network *)

(** What [os.path.exists], [open] and [json.load] observe of a file: it
    is not there; it is there and [json.load] rejects its text with a
    message (an empty file is rejected); [json.load] yields a value; or it
    is there and opening or reading it raises [e] before any JSON is parsed
    (bytes that are no UTF-8 text raise [UnicodeDecodeError], a directory
    or a file without read permission an [OSError]). *)
Inductive file_state : Type :=
| Absent
| Corrupt (msg : string)
| Stored (data : json)
| Unreadable (e : exn).

Inductive level : Type := INFO | WARNING | ERROR.

(** One constructor per [logger] call of the sources, with the values the
    message interpolates. *)
Inductive log_msg : Type :=
| FetchFailed (status : Z)     (* Failed to fetch IPO news. Status code: .. *)
| NoStateFile                  (* No state file found. Treating all IPOs as new. *)
| InvalidStateFile (e : exn)   (* Invalid state file: {e}. Resetting to 0. *)
| StateUpdated (max_id : json) (* Updated state file with max IPO ID: .. *)
| UrlNotSet                    (* IPO_NEWS_URL is not set in environment variables. *)
| WebhookNotSet                (* DISCORD_WEBHOOK_URL is not set in ... *)
| Fetched (n : nat)            (* Fetched IPO news with {n} items. *)
| NewDetected (n : nat) (ids : list json)  (* New IPOs detected: {n} (IDs: ..) *)
| AlertSent                    (* Discord alert sent for new IPOs. *)
| NoNew (current last : json)  (* No new IPOs. Current max ID: .. (last seen: ..) *)
| NoNews                       (* No IPO news fetched or invalid response. *)
| ErrorOccurred (e : exn)      (* An error occurred: {e} *)
| WebhookFailed (status : Z) (body : string)  (* Failed to send webhook: .., .. *)
| RequestFailed (target : string).  (* An error occurred while requesting .. *)

(** What a run does to the outside, in the order it does it: a log call,
    a [print], a GET or a POST being issued, a file being rewritten. *)
Inductive event : Type :=
| EvLog (lvl : level) (m : log_msg)
| EvPrint (text arg : string)
| EvGet (url : string)
| EvPost (url : string) (body : json) (headers : list (string * string))
| EvWrite (path : string) (data : json).

Record world : Type := mkWorld {
  files : string -> file_state;
  trace : list event
}.

(** An HTTP response as the two clients expose it. *)
Record response : Type := mkResponse {
  status_code : Z;
  text : string;
  json_body : result json      (* what [response.json()] does *)
}.

(** What the network answers to the one GET and the one POST of a run;
    [Raise] is an exception out of [requests.get] or [httpx.post]. *)
Record network : Type := mkNetwork {
  get_reply : string -> result response;
  post_reply : string -> json -> result response
}.

(** [os.getenv] after [load_dotenv()]. *)
Record environ : Type := mkEnviron {
  IPO_NEWS_URL : option string;
  DISCORD_WEBHOOK_URL : option string
}.

(** Computations that read and change the world and may raise. *)
Definition M (A : Type) : Type := world -> result A * world.

Definition ret {A} (a : A) : M A := fun w => (Ok a, w).

Definition bind {A B} (c : M A) (k : A -> M B) : M B := fun w =>
  match c w with
  | (Ok a, w') => k a w'
  | (Raise e, w') => (Raise e, w')
  end.

Notation "x <- c ;; k" := (bind c (fun x => k))
  (at level 61, c at next level, right associativity).
Notation "c1 ;; c2" := (bind c1 (fun _ => c2))
  (at level 61, right associativity).

Definition lift {A} (r : result A) : M A := fun w => (r, w).

Definition emit (e : event) : M unit := fun w =>
  (Ok tt, mkWorld (files w) (trace w ++ [e])).

(** Modelled from the spec: the [logger] module that both sources import is
    not among them; the specification describes it as a process-wide,
    write-only facility, so [logger.info], [logger.warning] and
    [logger.error] record the level and the message and return. *)
Definition log (lvl : level) (m : log_msg) : M unit := emit (EvLog lvl m).

(** [try: body  except ...: handler]; a handler of [None] lets the
    exception through. *)
Definition try_except {A} (body : M A) (handler : exn -> option (M A)) : M A :=
  fun w =>
    match body w with
    | (Ok a, w') => (Ok a, w')
    | (Raise e, w') =>
        match handler e with
        | Some h => h w'
        | None => (Raise e, w')
        end
    end.

Definition os_path_exists (path : string) : M bool := fun w =>
  (Ok (match files w path with Absent => false | _ => true end), w).

(** [with open(path, "r") as f: json.load(f)] *)
Definition json_load (path : string) : M json := fun w =>
  (match files w path with
   | Absent => Raise FileNotFoundError
   | Corrupt msg => Raise (JSONDecodeError msg)
   | Stored data => Ok data
   | Unreadable e => Raise e
   end, w).

Definition set_file (path : string) (c : file_state)
  (fs : string -> file_state) : string -> file_state :=
  fun p => if String.eqb p path then c else fs p.

(** [with open(path, "w") as f: json.dump(data, f, indent=2)].  The path
    is taken to be writable: a failing [open(path, "w")] is a fault of the
    environment that the model leaves out. *)
Definition json_dump (data : json) (path : string) : M unit := fun w =>
  (Ok tt, mkWorld (set_file path (Stored data) (files w))
                  (trace w ++ [EvWrite path data])).

Definition requests_get (net : network) (url : string) : M response :=
  emit (EvGet url) ;; lift (get_reply net url).

Definition httpx_post (net : network) (url : string) (body : json)
  (headers : list (string * string)) : M response :=
  emit (EvPost url body headers) ;; lift (post_reply net url body).

(** [response.raise_for_status()] of httpx: passes on 2xx only. *)
Definition raise_for_status (r : response) : result unit :=
  if (200 <=? status_code r) && (status_code r <=? 299) then Ok tt
  else Raise (HTTPStatusError (status_code r) (text r)).

(** ** [main.py]: feed client and state store *)

Definition IPONews (net : network) (url : string) : M json :=
  response <- requests_get net url ;;
  if negb (status_code response =? 200) then
    log ERROR (FetchFailed (status_code response)) ;; ret JNull
  else lift (json_body response).

Definition default_state_file : string := "last_ipo_state.json".

Definition get_last_max_id (state_file : string) : M json :=
  present <- os_path_exists state_file ;;
  if negb present then
    log INFO NoStateFile ;; ret (JInt 0)
  else
    try_except
      (data <- json_load state_file ;;
       lift (dict_get data "last_max_id" (JInt 0)))
      (fun e =>
         match e with
         | JSONDecodeError _ | KeyError _ =>
             Some (log WARNING (InvalidStateFile e) ;; ret (JInt 0))
         | _ => None
         end).

Definition update_last_max_id (max_id : json) (state_file : string) : M unit :=
  let data := JDict [("last_max_id", max_id)] in
  json_dump data state_file ;;
  log INFO (StateUpdated max_id).

(** ** [discord.py]: delivery *)

Definition send_discord_alert (net : network) (payload : json) (url : string)
  : M unit :=
  let headers := [("Content-Type", "application/json")] in
  emit (EvPrint "Sending webhook to Discord..." url) ;;
  try_except
    (response <- httpx_post net url payload headers ;;
     lift (raise_for_status response))
    (fun e =>
       match e with
       | HTTPStatusError code body => Some (log ERROR (WebhookFailed code body))
       | RequestError target => Some (log ERROR (RequestFailed target))
       | _ => None
       end).

(** ** [main.py]: the run *)

(** The condition [ipo_news and ipo_news.get("statusCode") == 200 and
    ipo_news.get("result", {}).get("data")], as [if] reads it. *)
Definition feed_is_usable (ipo_news : json) : result bool :=
  if negb (truthy ipo_news) then Ok false else
  code <-- dict_get ipo_news "statusCode" JNull ;;
  if negb (py_eq code (JInt 200)) then Ok false else
  res <-- dict_get ipo_news "result" (JDict []) ;;
  data <-- dict_get res "data" JNull ;;
  Ok (truthy data).

(** [ipo_news["result"]["data"]] *)
Definition feed_data (ipo_news : json) : result json :=
  res <-- getitem ipo_news "result" ;; getitem res "data".

(** [item["ipoId"]] *)
Definition ipoId_of (item : json) : result json := getitem item "ipoId".

(** Lines 202-204 of [main]: the identifiers, their maximum (0 when there
    is none) and the entries above the watermark. *)
Definition diff_step (all_data last_max_id : json) : result (json * list json) :=
  items <-- py_iter all_data ;;
  current_ids <-- mapM ipoId_of items ;;
  max_current_id <--
    match current_ids with
    | [] => Ok (JInt 0)
    | _ => py_max current_ids
    end ;;
  new_data <--
    filterM (fun item => id <-- ipoId_of item ;; py_gt id last_max_id) items ;;
  Ok (max_current_id, new_data).

Definition feed_url (initial_url : string) : string :=
  initial_url ++ "?&pageNo=" ++ str_of_Z 1 ++ "&itemsPerPage=" ++ str_of_Z 10
              ++ "&pagePerDisplay=" ++ str_of_Z 5.

(** The body of the [try] block of [main]. *)
Definition main_try (net : network) (clock : nat -> string)
  (url discord_webhook_url : string) : M unit :=
  ipo_news <- IPONews net url ;;
  usable <- lift (feed_is_usable ipo_news) ;;
  if usable then
    all_data <- lift (feed_data ipo_news) ;;
    n <- lift (py_len all_data) ;;
    log INFO (Fetched n) ;;
    last_max_id <- get_last_max_id default_state_file ;;
    d <- lift (diff_step all_data last_max_id) ;;
    let max_current_id := fst d in
    let new_data := snd d in
    match new_data with
    | _ :: _ =>
        ids <- lift (mapM ipoId_of new_data) ;;
        log INFO (NewDetected (List.length new_data) ids) ;;
        let new_data_limited := firstn 3 new_data in
        payload <- lift (create_discord_embed clock new_data_limited) ;;
        send_discord_alert net payload discord_webhook_url ;;
        log INFO AlertSent ;;
        update_last_max_id max_current_id default_state_file
    | [] => log INFO (NoNew max_current_id last_max_id)
    end
  else log INFO NoNews.

Definition main (env : environ) (net : network) (clock : nat -> string)
  : M unit :=
  match IPO_NEWS_URL env with
  | None => log ERROR UrlNotSet
  | Some initial_url =>
      match DISCORD_WEBHOOK_URL env with
      | None => log ERROR WebhookNotSet
      | Some discord_webhook_url =>
          let url := feed_url initial_url in
          try_except (main_try net clock url discord_webhook_url)
                     (fun e => Some (log ERROR (ErrorOccurred e)))
      end
  end.

(** The world a run leaves behind. *)
Definition run (env : environ) (net : network) (clock : nat -> string)
  (w : world) : world :=
  snd (main env net clock w).

(** ** Vocabulary of the statements *)

Definition is_comma (c : ascii) : bool := Ascii.eqb c ",".

Definition plain (c : ascii) : Prop := is_comma c = false.

(** [out] writes [digits] with a comma every three digits from the right:
    dropping the commas gives [digits] back, counting positions from the
    right (from 0) the commas sit exactly at 3, 7, 11, ..., and no comma
    leads. *)
Definition grouped_by_thousands (digits out : list ascii) : Prop :=
  filter (fun c => negb (is_comma c)) out = digits /\
  (forall i, (i < List.length out)%nat ->
     nth i (rev out) "0"%char = ","%char <-> (i mod 4 = 3)%nat) /\
  hd "0"%char out <> ","%char.

(** The number a [Decimal.uint] denotes after the digits read so far
    amount to [acc]. *)
Fixpoint uint_val (d : Decimal.uint) (acc : Z) : Z :=
  match d with
  | Decimal.Nil => acc
  | Decimal.D0 l => uint_val l (10 * acc)
  | Decimal.D1 l => uint_val l (10 * acc + 1)
  | Decimal.D2 l => uint_val l (10 * acc + 2)
  | Decimal.D3 l => uint_val l (10 * acc + 3)
  | Decimal.D4 l => uint_val l (10 * acc + 4)
  | Decimal.D5 l => uint_val l (10 * acc + 5)
  | Decimal.D6 l => uint_val l (10 * acc + 6)
  | Decimal.D7 l => uint_val l (10 * acc + 7)
  | Decimal.D8 l => uint_val l (10 * acc + 8)
  | Decimal.D9 l => uint_val l (10 * acc + 9)
  end.

(** The entries [S] are objects whose [ipoId] is the integer at the same
    position of [ids]. *)
Definition int_ids (S : list json) (ids : list Z) : Prop :=
  Forall2 (fun item n => ipoId_of item = Ok (JInt n)) S ids.

(** The identifier of [item] is an integer strictly greater than [m]. *)
Definition id_above (m : Z) (item : json) : bool :=
  match ipoId_of item with
  | Ok (JInt n) => m <? n
  | _ => false
  end.

Definition is_max_of (mx : Z) (ids : list Z) : Prop :=
  In mx ids /\ Forall (fun n => n <= mx) ids.

(** The identifier of [item] read as a number, when it is one. *)
Definition id_num (item : json) : option Z :=
  match ipoId_of item with
  | Ok v => as_num v
  | Raise _ => None
  end.

Definition numbered (items : list json) (nums : list Z) : Prop :=
  Forall2 (fun item n => id_num item = Some n) items nums.

Definition num_above (m : Z) (item : json) : bool :=
  match id_num item with
  | Some n => m <? n
  | None => false
  end.

(** [w] with the events [evs] appended to its trace. *)
Definition extend (w : world) (evs : list event) : world :=
  mkWorld (files w) (trace w ++ evs).

(** The events a run adds to the trace. *)
Definition run_events (env : environ) (net : network) (clock : nat -> string)
  (w : world) : list event :=
  skipn (List.length (trace w)) (trace (run env net clock w)).

(** The watermark the next run will read, when it is a number. *)
Definition watermark (w : world) : option Z :=
  match fst (get_last_max_id default_state_file w) with
  | Ok v => as_num v
  | Raise _ => None
  end.

Definition is_write (ev : event) : bool :=
  match ev with EvWrite _ _ => true | _ => false end.

Definition is_post (ev : event) : bool :=
  match ev with EvPost _ _ _ => true | _ => false end.

(** The run found a non-empty [new_data]. *)
Definition is_new_detected (ev : event) : bool :=
  match ev with EvLog _ (NewDetected _ _) => true | _ => false end.

(** The run ended in the [except Exception] handler of [main]. *)
Definition is_crash (ev : event) : bool :=
  match ev with EvLog _ (ErrorOccurred _) => true | _ => false end.

(** The exceptions the handler of [get_last_max_id] names. *)
Definition state_read_catches (e : exn) : bool :=
  match e with
  | JSONDecodeError _ | KeyError _ => true
  | _ => false
  end.

(** A computation sees the trace only to append to it. *)
Definition framed {A} (c : M A) : Prop :=
  forall f t,
    c (mkWorld f t)
    = (fst (c (mkWorld f [])),
       mkWorld (files (snd (c (mkWorld f []))))
               (t ++ trace (snd (c (mkWorld f []))))).

(** The fetch of a run succeeds with the usable data [all_data]: both
    settings are there, the GET is answered with status 200 and a JSON body
    that passes the shape check of [main]. *)
Definition usable_fetch (env : environ) (net : network) (all_data : json)
  : Prop :=
  exists initial_url hook resp ipo_news,
    IPO_NEWS_URL env = Some initial_url /\
    DISCORD_WEBHOOK_URL env = Some hook /\
    get_reply net (feed_url initial_url) = Ok resp /\
    status_code resp = 200 /\
    json_body resp = Ok ipo_news /\
    feed_is_usable ipo_news = Ok true /\
    feed_data ipo_news = Ok all_data.

(** What [create_discord_embed] needs of an entry: it is an object with the
    seventeen fields read there, [status] and [shareType] are strings (they
    are lowered and capitalized) and the four formatted amounts are strings
    or integers. *)
Definition is_str (x : json) : bool :=
  match x with JStr _ => true | _ => false end.

Definition int_like (x : json) : bool :=
  match x with JStr _ | JInt _ | JBool _ => true | _ => false end.

Definition any_value (x : json) : bool := true.

Definition has (p : json -> bool) (ipo : json) (k : string) : bool :=
  match getitem ipo k with
  | Ok v => p v
  | Raise _ => false
  end.

Definition well_formed_entry (ipo : json) : bool :=
  has is_str ipo "status" && has any_value ipo "sectorName" &&
  has is_str ipo "shareType" && has any_value ipo "rating" &&
  has any_value ipo "companyName" && has any_value ipo "stockSymbol" &&
  has any_value ipo "pricePerUnit" && has int_like ipo "units" &&
  has int_like ipo "minUnits" && has int_like ipo "maxUnits" &&
  has any_value ipo "openingDateAD" && has any_value ipo "openingDateBS" &&
  has any_value ipo "closingDateAD" && has any_value ipo "closingDateBS" &&
  has any_value ipo "closingDateClosingTime" &&
  has any_value ipo "shareRegistrar" && has int_like ipo "totalAmount".

(** ** Sample data *)

Definition sample_entry (id : Z) (status : json) : json :=
  JDict [("ipoId", JInt id); ("companyName", JStr "Acme Hydro");
         ("stockSymbol", JStr "ACME"); ("sectorName", JStr "Hydro Power");
         ("shareType", JStr "ordinary"); ("rating", JNull);
         ("status", status); ("pricePerUnit", JStr "100.00");
         ("units", JStr "1234567"); ("minUnits", JStr "10");
         ("maxUnits", JStr "10000"); ("openingDateAD", JStr "2025-01-01");
         ("openingDateBS", JStr "2081-09-17");
         ("closingDateAD", JStr "2025-01-05");
         ("closingDateBS", JStr "2081-09-21");
         ("closingDateClosingTime", JStr "5:00 PM");
         ("shareRegistrar", JStr "Sample Capital");
         ("totalAmount", JStr "123456700")].

Definition sample_feed (entries : list json) : json :=
  JDict [("statusCode", JInt 200); ("result", JDict [("data", JList entries)])].

Definition sample_env : environ :=
  mkEnviron (Some "https://feed.example/ipo") (Some "https://hook.example/w").

(** The feed answers 200 with [body]; the webhook answers [post]. *)
Definition sample_net (body : json) (post : result response) : network :=
  mkNetwork (fun _ => Ok (mkResponse 200 "" (Ok body))) (fun _ _ => post).

Definition no_content : result response :=
  Ok (mkResponse 204 "" (Raise (JSONDecodeError "Expecting value"))).

Definition sample_clock (i : nat) : string := "2025-01-01T10:00:00+05:30".

Definition world_with (state : file_state) : world :=
  mkWorld (fun _ => state) [].

Definition stored_watermark (n : Z) : file_state :=
  Stored (JDict [("last_max_id", JInt n)]).

Definition open_entry (id : Z) : json := sample_entry id (JStr "Open").

(** An entry whose [status] is JSON [null]. *)
Definition null_status_entry : json := sample_entry 101 JNull.

Definition three_entries : list json :=
  [open_entry 101; open_entry 102; open_entry 103].

(** ** Vocabulary of the further properties *)

Definition is_get (ev : event) : bool :=
  match ev with EvGet _ => true | _ => false end.

Definition is_log (ev : event) : bool :=
  match ev with EvLog _ _ => true | _ => false end.

Definition is_dict (x : json) : bool :=
  match x with JDict _ => true | _ => false end.



(** [c] is the letter [lo] or its capital [up]. *)
Definition either (lo up c : ascii) : bool :=
  Ascii.eqb c lo || Ascii.eqb c up.

(** [s] spells "open" in some mix of capitals and small letters. *)
Definition is_open_variant (s : string) : bool :=
  match s with
  | String c1 (String c2 (String c3 (String c4 EmptyString))) =>
      either "o" "O" c1 && either "p" "P" c2 &&
      either "e" "E" c3 && either "n" "N" c4
  | _ => false
  end.

(** The exceptions [send_discord_alert] has a handler for. *)
Definition is_absorbed (e : exn) : bool :=
  match e with
  | HTTPStatusError _ _ | RequestError _ => true
  | _ => false
  end.

(** A state file holding JSON that is not an object. *)
Definition list_state : file_state := Stored (JList [JInt 1]).

(** The payload rendered from the three sample entries. *)
Definition three_embeds_payload : json :=
  match create_discord_embed sample_clock three_entries with
  | Ok payload => payload
  | Raise _ => JNull
  end.

Definition sample_embed (status : json) : json :=
  match embed_for (sample_clock 0) (sample_entry 101 status) with
  | Ok e => e
  | Raise _ => JNull
  end.

Definition not_found : result response :=
  Ok (mkResponse 404 "Unknown Webhook" (Ok JNull)).

(** * Properties *)

(** ** Thousands grouping *)

Section Grouping.

Lemma insert_sep_strip (l : list ascii) : forall k,
  Forall plain l ->
  filter (fun c => negb (is_comma c)) (insert_sep k l) = l.
Proof.
  induction l as [|d l IH]; intros k H; [reflexivity|].
  inversion H as [|? ? Hd Hl]; subst.
  destruct k; simpl; rewrite Hd; simpl; f_equal; auto.
Qed.

Lemma insert_sep_commas (l : list ascii) : forall k i,
  (k <= 3)%nat -> Forall plain l ->
  (i < List.length (insert_sep k l))%nat ->
  nth i (insert_sep k l) "0"%char = ","%char <->
  ((i + (3 - k)) mod 4 = 3)%nat.
Proof.
  induction l as [|d l IH]; intros k i Hk H Hi; [simpl in Hi; lia|].
  inversion H as [|? ? Hd Hl]; subst.
  apply Ascii.eqb_neq in Hd.
  assert (Hshift : forall a, ((a + 1 * 4) mod 4 = a mod 4)%nat)
    by (intro; apply Nat.Div0.mod_add).
  destruct k as [|k]; cbn [insert_sep nth List.length] in *.
  - destruct i as [|[|j]]; cbn [nth].
    + split; reflexivity.
    + split; [intro E; now elim Hd | discriminate].
    + rewrite (IH 2%nat j) by (auto; lia).
      replace (S (S j) + (3 - 0))%nat with (j + (3 - 2) + 1 * 4)%nat by lia.
      now rewrite Hshift.
  - destruct i as [|j]; cbn [nth].
    + rewrite Nat.mod_small by lia.
      split; [intro E; now elim Hd | lia].
    + rewrite (IH k j) by (auto; lia).
      now replace (S j + (3 - S k))%nat with (j + (3 - k))%nat by lia.
Qed.

Lemma insert_sep_last (l : list ascii) : forall k d,
  l <> [] -> last (insert_sep k l) d = last l d.
Proof.
  induction l as [|a l IH]; intros k d Hne; [congruence|].
  destruct l as [|b l].
  - destruct k; reflexivity.
  - assert (Hrest : forall k', last (insert_sep k' (b :: l)) d = last (b :: l) d)
      by (intro; apply IH; discriminate).
    assert (Hcons : forall k', exists x r, insert_sep k' (b :: l) = x :: r)
      by (intros [|k']; simpl; eauto).
    destruct k as [|k].
    + change (insert_sep 0 (a :: b :: l))
        with (","%char :: a :: insert_sep 2 (b :: l)).
      destruct (Hcons 2%nat) as (x & r & E).
      specialize (Hrest 2%nat). rewrite E in *. exact Hrest.
    + change (insert_sep (S k) (a :: b :: l))
        with (a :: insert_sep k (b :: l)).
      destruct (Hcons k) as (x & r & E).
      specialize (Hrest k). rewrite E in *. exact Hrest.
Qed.

Lemma hd_rev_last (l : list ascii) (d : ascii) : hd d (rev l) = last l d.
Proof.
  induction l as [|a l IH]; [reflexivity|].
  simpl rev. destruct l as [|b l]; [reflexivity|].
  change (last (a :: b :: l) d) with (last (b :: l) d).
  rewrite <- IH. simpl rev.
  destruct (rev l ++ [b])%list eqn:E; [|reflexivity].
  now destruct (rev l).
Qed.

Lemma group3_grouped (digits : list ascii) :
  digits <> [] -> Forall plain digits ->
  grouped_by_thousands digits (group3 digits).
Proof.
  intros Hne Hplain. unfold group3. repeat split.
  - rewrite filter_rev, insert_sep_strip, rev_involutive;
      [reflexivity | now apply Forall_rev].
  - rewrite rev_involutive. rewrite length_rev in H.
    intro E. apply insert_sep_commas in E; auto using Forall_rev.
    now rewrite Nat.add_0_r in E.
  - rewrite rev_involutive. rewrite length_rev in H.
    intro E. apply insert_sep_commas; auto using Forall_rev.
    now rewrite Nat.add_0_r.
  - rewrite hd_rev_last, insert_sep_last.
    + rewrite <- hd_rev_last, rev_involutive.
      destruct digits as [|c ds]; [congruence|].
      inversion Hplain; subst. simpl. now apply Ascii.eqb_neq.
    + intro E. apply (f_equal (@rev ascii)) in E.
      rewrite rev_involutive in E. now apply Hne.
Qed.

End Grouping.

(** ** Decimal digits *)

Lemma digit_is_plain (c : ascii) : is_digit c = true -> is_comma c = false.
Proof.
  unfold is_digit, is_comma. intro H.
  apply Ascii.eqb_neq. intros ->. discriminate.
Qed.

Lemma uint_chars_digits (d : Decimal.uint) :
  Forall (fun c => is_digit c = true)
         (list_ascii_of_string (NilEmpty.string_of_uint d)).
Proof. induction d; simpl; constructor; auto. Qed.

Lemma parse_uint_chars (d : Decimal.uint) : forall acc b,
  d <> Decimal.Nil \/ b = true ->
  parse_digits acc b (list_ascii_of_string (NilEmpty.string_of_uint d))
  = Some (uint_val d acc).
Proof.
  induction d; intros acc b H;
    [destruct H as [H | ->]; [congruence | reflexivity] | ..];
    cbn -[Z.mul Z.add digit_val is_digit];
    rewrite IHd by (right; reflexivity);
    match goal with
    | |- context [digit_val ?c] =>
        let v := eval vm_compute in (digit_val c) in
        change (digit_val c) with v; change (is_digit c) with true
    end;
    cbv iota; do 2 f_equal; lia.
Qed.

Lemma uint_val_of_uint_acc (d : Decimal.uint) : forall acc,
  uint_val d (Z.pos acc) = Z.pos (Pos.of_uint_acc d acc).
Proof.
  induction d; intro acc; cbn -[Z.mul Z.add Pos.mul Pos.add];
    [reflexivity | ..];
    rewrite <- IHd; f_equal; lia.
Qed.

Lemma uint_val_of_uint (d : Decimal.uint) :
  uint_val d 0 = Z.of_N (Pos.of_uint d).
Proof.
  induction d; cbn -[Z.mul Z.add]; try reflexivity; try exact IHd;
    rewrite <- uint_val_of_uint_acc; reflexivity.
Qed.

Lemma digits_of_spec (n : Z) :
  digits_of n <> [] /\
  Forall (fun c => is_digit c = true) (digits_of n) /\
  parse_digits 0 false (digits_of n) = Some (Z.abs n).
Proof.
  unfold digits_of, str_of_Z.
  destruct (Z.abs n) as [|p|p] eqn:E; [| |lia].
  - repeat split; try discriminate. repeat constructor.
  - cbn [Z.to_int NilZero.string_of_int].
    pose proof (DecimalPos.Unsigned.to_uint_nonnil p) as Hnil.
    assert (Hs : NilZero.string_of_uint (Pos.to_uint p)
                 = NilEmpty.string_of_uint (Pos.to_uint p))
      by (destruct (Pos.to_uint p); [congruence | reflexivity ..]).
    rewrite Hs. repeat split.
    + destruct (Pos.to_uint p); [congruence | discriminate ..].
    + apply uint_chars_digits.
    + rewrite parse_uint_chars by (left; exact Hnil).
      rewrite uint_val_of_uint, DecimalPos.Unsigned.of_to. reflexivity.
Qed.

(** ** The bound on the number of digits *)

Lemma digit_val_bound (c : ascii) : is_digit c = true -> 0 <= digit_val c <= 9.
Proof.
  unfold is_digit, digit_val. intro H.
  apply andb_true_iff in H as [H1 H2].
  apply Nat.leb_le in H1, H2. lia.
Qed.

Lemma count_digits_cons (c : ascii) (l : list ascii) :
  count_digits (c :: l)
  = if is_digit c then 1 + count_digits l else count_digits l.
Proof.
  unfold count_digits. cbn [filter].
  destruct (is_digit c); [cbn [List.length]; lia | reflexivity].
Qed.

Lemma count_digits_nonneg (l : list ascii) : 0 <= count_digits l.
Proof. unfold count_digits. lia. Qed.

Lemma count_digits_rev (l : list ascii) : count_digits (rev l) = count_digits l.
Proof. unfold count_digits. now rewrite filter_rev, length_rev. Qed.

Lemma count_digits_drop_spaces (l : list ascii) :
  count_digits (drop_spaces l) <= count_digits l.
Proof.
  induction l as [|c l IH]; cbn [drop_spaces]; [lia|].
  destruct (is_space c); [|lia].
  rewrite (count_digits_cons c l). destruct (is_digit c); lia.
Qed.

Lemma count_digits_strip (l : list ascii) :
  count_digits (strip l) <= count_digits l.
Proof.
  unfold strip. rewrite count_digits_rev.
  etransitivity; [apply count_digits_drop_spaces|].
  rewrite count_digits_rev. apply count_digits_drop_spaces.
Qed.

Lemma count_digits_all (l : list ascii) :
  Forall (fun c => is_digit c = true) l ->
  count_digits l = Z.of_nat (List.length l).
Proof.
  induction 1 as [|c l Hc Hl IH]; [reflexivity|].
  rewrite count_digits_cons, Hc, IH. cbn [List.length]. lia.
Qed.

(** The digits read bound the number read. *)
Lemma parse_digits_bound (l : list ascii) : forall acc b m,
  0 <= acc -> parse_digits acc b l = Some m ->
  acc * 10 ^ count_digits l <= m < (acc + 1) * 10 ^ count_digits l.
Proof.
  induction l as [|c l IH]; intros acc b m Hacc H; cbn [parse_digits] in H.
  - destruct b; [|discriminate]. injection H as <-.
    change (count_digits []) with 0. lia.
  - rewrite count_digits_cons.
    pose proof (count_digits_nonneg l) as Hk.
    destruct (is_digit c) eqn:Hc.
    + pose proof (digit_val_bound c Hc) as Hd.
      apply IH in H; [|lia].
      replace (1 + count_digits l) with (Z.succ (count_digits l)) by lia.
      rewrite Z.pow_succ_r by assumption.
      assert (0 < 10 ^ count_digits l) by (apply Z.pow_pos_nonneg; lia).
      nia.
    + destruct (Ascii.eqb c "_" && b); [|discriminate].
      now apply IH in H.
Qed.

Lemma uint_chars_length (d : Decimal.uint) :
  List.length (list_ascii_of_string (NilEmpty.string_of_uint d))
  = Decimal.nb_digits d.
Proof. induction d; cbn; congruence. Qed.

Lemma uint_val_lower (d : Decimal.uint) : forall acc,
  0 <= acc -> acc * 10 ^ Z.of_nat (Decimal.nb_digits d) <= uint_val d acc.
Proof.
  induction d; intros acc Hacc;
    [cbn; lia | ..];
    cbn [uint_val Decimal.nb_digits];
    rewrite Nat2Z.inj_succ, Z.pow_succ_r by lia;
    (etransitivity; [|apply IHd; lia]);
    assert (0 < 10 ^ Z.of_nat (Decimal.nb_digits d))
      by (apply Z.pow_pos_nonneg; lia);
    nia.
Qed.

Lemma nzhead_leading (d : Decimal.uint) :
  match Decimal.nzhead d with Decimal.D0 _ => False | _ => True end.
Proof. induction d; cbn; auto. Qed.

(** The decimal writing of a positive number starts with a digit that is
    not zero. *)
Lemma to_uint_leading (p : positive) :
  match Pos.to_uint p with
  | Decimal.Nil | Decimal.D0 _ => False
  | _ => True
  end.
Proof.
  pose proof (DecimalPos.Unsigned.to_of (Pos.to_uint p)) as H.
  rewrite DecimalPos.Unsigned.of_to in H. cbn [N.to_uint] in H.
  pose proof (DecimalPos.Unsigned.to_uint_nonzero p) as Hnz.
  rewrite H. rewrite H in Hnz. unfold Decimal.unorm in *.
  pose proof (nzhead_leading (Pos.to_uint p)) as Hl.
  destruct (Decimal.nzhead (Pos.to_uint p)); auto.
Qed.

(** A number of [L] digits is at least [10 ^ (L - 1)]. *)
Lemma digits_of_magnitude (n : Z) :
  n <> 0 -> 10 ^ (Z.of_nat (List.length (digits_of n)) - 1) <= Z.abs n.
Proof.
  intro Hn. unfold digits_of, str_of_Z.
  destruct (Z.abs n) as [|p|p] eqn:E; [lia | | lia].
  cbn [Z.to_int NilZero.string_of_int].
  pose proof (to_uint_leading p) as Hl.
  pose proof (uint_val_of_uint (Pos.to_uint p)) as Hv.
  rewrite DecimalPos.Unsigned.of_to in Hv. cbn [Z.of_N] in Hv.
  rewrite <- Hv.
  destruct (Pos.to_uint p) as [|d|d|d|d|d|d|d|d|d|d]; try contradiction;
    cbn [NilZero.string_of_uint NilEmpty.string_of_uint list_ascii_of_string
         List.length uint_val];
    rewrite uint_chars_length;
    replace (Z.of_nat (S (Decimal.nb_digits d)) - 1)
      with (Z.of_nat (Decimal.nb_digits d)) by lia;
    (etransitivity; [|apply uint_val_lower; lia]);
    assert (0 < 10 ^ Z.of_nat (Decimal.nb_digits d))
      by (apply Z.pow_pos_nonneg; lia);
    lia.
Qed.

Lemma digits_of_zero : digits_of 0 = ["0"%char].
Proof. reflexivity. Qed.

(** A number below [10 ^ k] has at most [k] digits. *)
Lemma digits_of_length (n k : Z) :
  1 <= k -> Z.abs n < 10 ^ k -> Z.of_nat (List.length (digits_of n)) <= k.
Proof.
  intros Hk Hlt.
  destruct (Z.eq_dec n 0) as [-> | Hn]; [rewrite digits_of_zero; cbn; lia|].
  pose proof (digits_of_magnitude n Hn) as Hlow.
  destruct (Z.le_gt_cases (Z.of_nat (List.length (digits_of n))) k) as [|Hgt];
    [assumption|].
  exfalso.
  assert (10 ^ k <= 10 ^ (Z.of_nat (List.length (digits_of n)) - 1))
    by (apply Z.pow_le_mono_r; lia).
  lia.
Qed.

(** What [int_literal] accepts is a run of digits with its value, and the
    literal has at least those digits. *)
Lemma int_literal_digits (l : list ascii) (n : Z) :
  int_literal l = Some n ->
  exists ds,
    parse_digits 0 false ds = Some (Z.abs n) /\
    count_digits ds <= count_digits l.
Proof.
  unfold int_literal. pose proof (count_digits_strip l) as Hs.
  destruct (strip l) as [|c ds]; [discriminate|].
  rewrite count_digits_cons in Hs.
  assert (Hds : count_digits ds <= count_digits l)
    by (destruct (is_digit c); lia).
  destruct (Ascii.eqb c "-").
  - destruct (parse_digits 0 false ds) as [m|] eqn:Hm; [|discriminate].
    cbn [option_map]. intros [= <-].
    pose proof (parse_digits_bound ds 0 false m (Z.le_refl 0) Hm).
    exists ds. split; [|assumption]. rewrite Hm. f_equal. lia.
  - destruct (Ascii.eqb c "+").
    + intro Hm.
      pose proof (parse_digits_bound ds 0 false n (Z.le_refl 0) Hm).
      exists ds. split; [|assumption]. rewrite Hm. f_equal. lia.
    + intro Hm.
      pose proof (parse_digits_bound (c :: ds) 0 false n (Z.le_refl 0) Hm).
      exists (c :: ds). split.
      * rewrite Hm. f_equal. lia.
      * rewrite count_digits_cons. destruct (is_digit c); lia.
Qed.

Lemma parse_digits_some_digit (l : list ascii) : forall acc m,
  parse_digits acc false l = Some m -> 1 <= count_digits l.
Proof.
  destruct l as [|c l]; intros acc m H; cbn [parse_digits] in H;
    [discriminate|].
  rewrite count_digits_cons. pose proof (count_digits_nonneg l).
  destruct (is_digit c); [lia|].
  rewrite andb_false_r in H. discriminate.
Qed.

(** The integer that [int] reads from a text is one that the formatting
    accepts. *)
Lemma py_int_formats (s : string) (n : Z) :
  py_int s = Some n -> py_format_comma n = Some (format_comma n).
Proof.
  unfold py_int, py_format_comma.
  set (l := map int_char (utf8_decode (list_ascii_of_string s))).
  destruct (Z.leb_spec (count_digits l) int_max_str_digits) as [Hb|];
    [|discriminate].
  intro H. apply int_literal_digits in H as (ds & Hds & Hcnt).
  pose proof (parse_digits_bound ds 0 false _ (Z.le_refl 0) Hds) as Hm.
  pose proof (parse_digits_some_digit ds 0 _ Hds) as H1.
  assert (Hlen : Z.of_nat (List.length (digits_of n)) <= count_digits ds)
    by (apply digits_of_length; [assumption | lia]).
  destruct (Z.leb_spec (Z.of_nat (List.length (digits_of n)))
                       int_max_str_digits); [reflexivity | lia].
Qed.

(** C7.  For every string that [int] accepts, [format_number] returns the
    decimal digits of the integer (with its sign) written with a comma every
    three digits from the right; for every string that [int] rejects (so for
    every string that is no number at all) it returns the input itself.
    [int] is the one of the interpreter: it reads the decimal digits and the
    white space of every script and rejects a text of more than
    [int_max_str_digits] digits, so what it accepts the formatting never
    refuses. *)
Theorem format_number_thousands (s : string) :
  (forall n, py_int s = Some n ->
     exists body,
       format_number (JStr s)
       = Ok (JStr ((if n <? 0 then "-" else "") ++ string_of_list_ascii body)) /\
       grouped_by_thousands (digits_of n) body /\
       parse_digits 0 false (digits_of n) = Some (Z.abs n)) /\
  (py_int s = None -> format_number (JStr s) = Ok (JStr s)).
Proof.
  split.
  - intros n Hn. exists (group3 (digits_of n)).
    destruct (digits_of_spec n) as (Hne & Hdig & Hval).
    assert (G : grouped_by_thousands (digits_of n) (group3 (digits_of n))).
    { apply group3_grouped; auto.
      eapply Forall_impl; [|exact Hdig]. apply digit_is_plain. }
    split; [|split; assumption].
    unfold format_number. rewrite Hn, (py_int_formats s n Hn). reflexivity.
  - intro Hn. unfold format_number. rewrite Hn. reflexivity.
Qed.

Lemma format_number_thousands_witness :
  (exists body,
     format_number (JStr "1234567")
     = Ok (JStr ("" ++ string_of_list_ascii body)) /\
     grouped_by_thousands (digits_of 1234567) body /\
     parse_digits 0 false (digits_of 1234567) = Some 1234567) /\
  (exists body,
     format_number (JStr " -१२३४५६७")
     = Ok (JStr ("-" ++ string_of_list_ascii body)) /\
     grouped_by_thousands (digits_of (-1234567)) body /\
     parse_digits 0 false (digits_of (-1234567)) = Some 1234567) /\
  format_number (JStr "abc") = Ok (JStr "abc").
Proof.
  split; [|split].
  - apply (proj1 (format_number_thousands "1234567") 1234567). reflexivity.
  - apply (proj1 (format_number_thousands " -१२३४५६७") (-1234567)).
    reflexivity.
  - apply (proj2 (format_number_thousands "abc")). reflexivity.
Defined.

Example format_number_examples :
  format_number (JStr "1234567") = Ok (JStr "1,234,567") /\
  format_number (JStr "abc") = Ok (JStr "abc") /\
  format_number (JStr "-1234") = Ok (JStr "-1,234") /\
  format_number (JStr " 1_000 ") = Ok (JStr "1,000") /\
  format_number (JStr "12.5") = Ok (JStr "12.5") /\
  format_number (JStr "१२३४५६७") = Ok (JStr "1,234,567") /\
  format_number (JStr "１２３４") = Ok (JStr "1,234") /\
  format_number (JStr "1२3४") = Ok (JStr "1,234") /\
  format_number (JStr "Ⅻ") = Ok (JStr "Ⅻ") /\
  format_number (JInt 123456) = Ok (JStr "123,456") /\
  format_number (JBool true) = Ok (JStr "1") /\
  format_number JNull = Raise TypeError.
Proof. repeat split. Qed.

(** Beyond the bound on the digits nothing is formatted: a text of more
    than [int_max_str_digits] digits is rejected by [int] and returned as it
    is, and an integer of more than that many digits is refused by the
    formatting and returned as it is, an integer. *)
Lemma format_number_beyond_bound :
  (forall s,
     int_max_str_digits
     < count_digits (map int_char (utf8_decode (list_ascii_of_string s))) ->
     py_int s = None /\ format_number (JStr s) = Ok (JStr s)) /\
  (forall n,
     int_max_str_digits < Z.of_nat (List.length (digits_of n)) ->
     py_format_comma n = None /\ format_number (JInt n) = Ok (JInt n)).
Proof.
  split.
  - intros s H.
    assert (Hs : py_int s = None).
    { unfold py_int. apply Z.leb_gt in H. now rewrite H. }
    split; [exact Hs|]. cbn [format_number]. now rewrite Hs.
  - intros n H.
    assert (Hn : py_format_comma n = None).
    { unfold py_format_comma. apply Z.leb_gt in H. now rewrite H. }
    split; [exact Hn|]. cbn [format_number]. now rewrite Hn.
Qed.

(** ** The diff step *)

Lemma py_gt_num (x y : json) (a b : Z) :
  as_num x = Some a -> as_num y = Some b -> py_gt x y = Ok (b <? a).
Proof.
  destruct x, y; simpl; intros Ha Hb; try discriminate;
    injection Ha as <-; injection Hb as <-; reflexivity.
Qed.

Lemma mapM_int_ids (S : list json) (ids : list Z) :
  int_ids S ids -> mapM ipoId_of S = Ok (map JInt ids).
Proof.
  induction 1 as [|item n S ids Hid _ IH]; simpl; [reflexivity|].
  rewrite Hid. simpl. rewrite IH. reflexivity.
Qed.

Lemma max_from_ints (l : list Z) : forall b,
  max_from (JInt b) (map JInt l) = Ok (JInt (fold_left Z.max l b)).
Proof.
  induction l as [|n l IH]; intro b; simpl; [reflexivity|].
  destruct (Z.ltb_spec b n); rewrite IH; do 2 f_equal;
    [rewrite Z.max_r | rewrite Z.max_l]; lia.
Qed.

Lemma fold_max_is_max (l : list Z) : forall b,
  is_max_of (fold_left Z.max l b) (b :: l).
Proof.
  induction l as [|n l IH]; intro b; simpl.
  - split; [now left | repeat constructor; lia].
  - destruct (IH (Z.max b n)) as (Hin & Hall).
    inversion Hall as [|? ? Hb Hl]; subst. split.
    + destruct Hin as [E | Hin]; [|now right; right].
      rewrite <- E. destruct (Z.max_spec b n) as [[_ ->] | [_ ->]]; simpl; auto.
    + constructor; [lia|]. constructor; [lia | exact Hl].
Qed.

Lemma filterM_int_ids (S : list json) (ids : list Z) (last : json) (m : Z) :
  int_ids S ids -> as_num last = Some m ->
  filterM (fun item => id <-- ipoId_of item ;; py_gt id last) S
  = Ok (filter (id_above m) S).
Proof.
  intros H Hm.
  induction H as [|item n S ids Hid _ IH]; cbn [filterM filter];
    [reflexivity|].
  unfold id_above at 1. rewrite Hid. cbn [rbind].
  rewrite (py_gt_num (JInt n) last n m eq_refl Hm). cbn [rbind].
  rewrite IH. reflexivity.
Qed.

Lemma diff_step_int_ids (S : list json) (ids : list Z) (last : json) (m : Z) :
  int_ids S ids -> as_num last = Some m ->
  diff_step (JList S) last
  = Ok (match ids with [] => JInt 0 | n :: l => JInt (fold_left Z.max l n) end,
        filter (id_above m) S).
Proof.
  intros H Hm. unfold diff_step. cbn [py_iter rbind].
  rewrite (mapM_int_ids S ids H). cbn [rbind].
  rewrite (filterM_int_ids S ids last m H Hm).
  destruct ids as [|n l]; cbn [map py_max rbind]; [reflexivity|].
  rewrite max_from_ints. reflexivity.
Qed.

(** C1.  For every watermark [m] and every fetched list [S] of entries with
    integer identifiers, the new entries of the diff step are exactly the
    entries of [S] whose [ipoId] is strictly greater than [m], in the order
    of [S]. *)
Theorem diff_step_new_entries (S : list json) (ids : list Z)
  (last : json) (m : Z) :
  int_ids S ids -> as_num last = Some m ->
  exists max_id, diff_step (JList S) last = Ok (max_id, filter (id_above m) S).
Proof.
  intros H Hm. rewrite (diff_step_int_ids S ids last m H Hm). eauto.
Qed.

(** C2.  For every non-empty fetched list [S] of entries with integer
    identifiers the diff step computes the maximum identifier of all of [S],
    whatever the watermark; for the empty list it computes 0. *)
Theorem diff_step_new_max (S : list json) (ids : list Z)
  (last : json) (m : Z) :
  int_ids S ids -> as_num last = Some m ->
  exists mx new_entries,
    diff_step (JList S) last = Ok (JInt mx, new_entries) /\
    (S <> [] -> is_max_of mx ids) /\
    (S = [] -> mx = 0).
Proof.
  intros H Hm. rewrite (diff_step_int_ids S ids last m H Hm).
  destruct H as [|item n S ids Hid Hrest].
  - exists 0, []. repeat split; congruence.
  - exists (fold_left Z.max ids n), (filter (id_above m) (item :: S)).
    split; [reflexivity|].
    split; [intros _; apply fold_max_is_max | discriminate].
Qed.

(** *** Numeric identifiers *)

Lemma py_gt_ok_num (x y : json) (b : Z) (r : bool) :
  as_num y = Some b -> py_gt x y = Ok r ->
  exists a, as_num x = Some a /\ r = (b <? a).
Proof.
  destruct x, y; simpl; intros Hb Hr; try discriminate;
    injection Hb as <-; injection Hr as <-; eauto.
Qed.

Lemma filterM_numbered (items : list json) (last : json) (m : Z) :
  forall new_data,
  as_num last = Some m ->
  filterM (fun item => id <-- ipoId_of item ;; py_gt id last) items
  = Ok new_data ->
  exists nums, numbered items nums /\ new_data = filter (num_above m) items.
Proof.
  induction items as [|item items IH]; intros new_data Hm H.
  - injection H as <-. exists []. split; [constructor | reflexivity].
  - cbn [filterM] in H. unfold num_above, id_num. cbn [filter].
    destruct (ipoId_of item) as [v|e] eqn:Hv; [|discriminate].
    cbn [rbind] in H.
    destruct (py_gt v last) as [keep|e] eqn:Hgt; [|discriminate].
    destruct (py_gt_ok_num v last m keep Hm Hgt) as (a & Ha & ->).
    cbn [rbind] in H.
    destruct (filterM _ items) as [rest|e] eqn:Hrest; [|discriminate].
    destruct (IH rest Hm eq_refl) as (nums & Hnums & ->).
    cbn [rbind] in H. injection H as <-.
    exists (a :: nums). split.
    + constructor; [|exact Hnums]. unfold id_num. now rewrite Hv.
    + rewrite Ha. reflexivity.
Qed.

Lemma numbered_filterM (items : list json) (nums : list Z)
  (last : json) (m : Z) :
  numbered items nums -> as_num last = Some m ->
  filterM (fun item => id <-- ipoId_of item ;; py_gt id last) items
  = Ok (filter (num_above m) items).
Proof.
  intros H Hm.
  induction H as [|item n items nums Hid _ IH]; cbn [filterM filter];
    [reflexivity|].
  unfold num_above at 1. rewrite Hid. unfold id_num in Hid.
  destruct (ipoId_of item) as [v|e]; [|discriminate]. cbn [rbind].
  rewrite (py_gt_num v last n m Hid Hm). cbn [rbind].
  rewrite IH. reflexivity.
Qed.

Lemma numbered_mapM (items : list json) (nums : list Z) :
  numbered items nums ->
  exists vals, mapM ipoId_of items = Ok vals /\
               Forall2 (fun v n => as_num v = Some n) vals nums.
Proof.
  induction 1 as [|item n items nums Hid _ (vals & IH & Hvals)].
  - exists []. split; [reflexivity | constructor].
  - unfold id_num in Hid. cbn [mapM].
    destruct (ipoId_of item) as [v|e]; [|discriminate].
    exists (v :: vals). rewrite IH. split; [reflexivity | now constructor].
Qed.

Lemma max_from_num (vals : list json) (nums : list Z) :
  Forall2 (fun v n => as_num v = Some n) vals nums ->
  forall best b, as_num best = Some b ->
  exists mx, max_from best vals = Ok mx /\
             as_num mx = Some (fold_left Z.max nums b).
Proof.
  induction 1 as [|v n vals nums Hv _ IH]; intros best b Hb; cbn [max_from].
  - exists best. split; [reflexivity | exact Hb].
  - rewrite (py_gt_num v best n b Hv Hb). cbn [rbind fold_left].
    apply IH. destruct (Z.ltb_spec b n).
    + rewrite Z.max_r by lia. exact Hv.
    + rewrite Z.max_l by lia. exact Hb.
Qed.

Lemma numbered_below (items : list json) (nums : list Z) (m : Z) :
  numbered items nums -> Forall (fun n => n <= m) nums ->
  filter (num_above m) items = [].
Proof.
  induction 1 as [|item n items nums Hid _ IH]; intro Hall; [reflexivity|].
  inversion Hall as [|? ? Hn Hrest]; subst. cbn [filter].
  unfold num_above at 1. rewrite Hid.
  destruct (Z.ltb_spec m n); [lia | auto].
Qed.

Lemma numbered_above (items : list json) (nums : list Z) (m : Z) :
  numbered items nums -> filter (num_above m) items <> [] ->
  exists n, In n nums /\ m < n.
Proof.
  induction 1 as [|item n items nums Hid _ IH]; cbn [filter]; [congruence|].
  unfold num_above at 1. rewrite Hid.
  destruct (Z.ltb_spec m n); intro Hne.
  - exists n. split; [now left | assumption].
  - destruct (IH Hne) as (k & Hk & Hlt). exists k. split; [now right | assumption].
Qed.

(** After a run that found new entries above a numeric watermark, the
    maximum is a number above the watermark and the same feed holds
    nothing above that maximum. *)
Lemma diff_step_advances (all_data last mx : json) (new_data : list json)
  (m : Z) :
  as_num last = Some m ->
  diff_step all_data last = Ok (mx, new_data) -> new_data <> [] ->
  exists m', as_num mx = Some m' /\ m < m' /\
             diff_step all_data mx = Ok (mx, []).
Proof.
  intros Hm H Hne. unfold diff_step in *.
  destruct (py_iter all_data) as [items|e]; [|discriminate].
  cbn [rbind] in *.
  destruct (mapM ipoId_of items) as [vals|e] eqn:Hvals; [|discriminate].
  cbn [rbind] in *.
  destruct (match vals with [] => Ok (JInt 0) | _ :: _ => py_max vals end)
    as [mx0|e] eqn:Hmax; [|discriminate].
  cbn [rbind] in *.
  destruct (filterM _ items) as [new0|e] eqn:Hnew; [|discriminate].
  cbn [rbind] in H. injection H as -> ->.
  destruct (filterM_numbered items last m new_data Hm Hnew)
    as (nums & Hnums & ->).
  destruct (numbered_mapM items nums Hnums) as (vals' & Hvals' & Hnum).
  rewrite Hvals in Hvals'. injection Hvals' as <-.
  destruct (numbered_above items nums m Hnums Hne) as (k & Hk & Hlt).
  destruct Hnum as [|v n vals nums Hv Hrest]; [contradiction|].
  cbn [py_max] in Hmax.
  destruct (max_from_num vals nums Hrest v n Hv) as (mx' & Hmx' & Hval).
  rewrite Hmax in Hmx'. injection Hmx' as <-.
  destruct (fold_max_is_max nums n) as (_ & Hall).
  exists (fold_left Z.max nums n). split; [exact Hval|]. split.
  - rewrite Forall_forall in Hall. specialize (Hall k Hk). lia.
  - rewrite (numbered_filterM items (n :: nums) mx _ Hnums Hval).
    rewrite (numbered_below items (n :: nums) _ Hnums Hall). reflexivity.
Qed.

(** ** Framing: the trace is only appended to *)

Section Framing.

Context {A B : Type}.

Lemma framed_ret (a : A) : framed (ret a).
Proof. intros f t. cbn. now rewrite app_nil_r. Qed.

Lemma framed_lift (r : result A) : framed (lift r).
Proof. intros f t. cbn. now rewrite app_nil_r. Qed.

Lemma framed_bind (c : M A) (k : A -> M B) :
  framed c -> (forall a, framed (k a)) -> framed (bind c k).
Proof.
  intros Hc Hk f t. unfold bind. rewrite (Hc f t).
  destruct (c (mkWorld f [])) as [[a|e] [f1 t1]]; cbn; [|reflexivity].
  rewrite (Hk a f1 (t ++ t1)%list), (Hk a f1 t1). cbn.
  now rewrite app_assoc.
Qed.

Lemma framed_try_except (body : M A) (handler : exn -> option (M A)) :
  framed body -> (forall e h, handler e = Some h -> framed h) ->
  framed (try_except body handler).
Proof.
  intros Hb Hh f t. unfold try_except. rewrite (Hb f t).
  destruct (body (mkWorld f [])) as [[a|e] [f1 t1]]; cbn; [reflexivity|].
  destruct (handler e) as [h|] eqn:E; [|reflexivity].
  rewrite (Hh e h E f1 (t ++ t1)%list), (Hh e h E f1 t1). cbn.
  now rewrite app_assoc.
Qed.

End Framing.

Lemma framed_emit (e : event) : framed (emit e).
Proof. intros f t. reflexivity. Qed.

Lemma framed_log (lvl : level) (m : log_msg) : framed (log lvl m).
Proof. apply framed_emit. Qed.

Lemma framed_os_path_exists (path : string) : framed (os_path_exists path).
Proof. intros f t. cbn. now rewrite app_nil_r. Qed.

Lemma framed_json_load (path : string) : framed (json_load path).
Proof. intros f t. cbn. now rewrite app_nil_r. Qed.

Lemma framed_json_dump (data : json) (path : string) :
  framed (json_dump data path).
Proof. intros f t. reflexivity. Qed.

Create HintDb framed.

#[local] Hint Resolve framed_ret framed_lift framed_emit framed_log
  framed_os_path_exists framed_json_load framed_json_dump : framed.

Ltac framed_step :=
  match goal with
  | |- framed (bind _ _) => apply framed_bind; [|intros ?]
  | |- framed (try_except _ _) =>
      apply framed_try_except; [|intros ? ? ?]
  | |- framed (if ?b then _ else _) => destruct b
  | |- framed (match ?x with _ => _ end) => destruct x
  | H : Some _ = Some _ |- _ => injection H as <-
  | H : None = Some _ |- _ => discriminate H
  | H : match ?e with _ => _ end = Some _ |- _ => destruct e
  | |- framed _ => solve [auto with framed]
  end.

Lemma framed_get_last_max_id (path : string) : framed (get_last_max_id path).
Proof. unfold get_last_max_id. repeat framed_step. Qed.

Lemma framed_update_last_max_id (max_id : json) (path : string) :
  framed (update_last_max_id max_id path).
Proof. unfold update_last_max_id. repeat framed_step. Qed.

Lemma framed_send_discord_alert (net : network) (payload : json)
  (url : string) : framed (send_discord_alert net payload url).
Proof.
  unfold send_discord_alert, httpx_post. repeat framed_step.
Qed.

Lemma framed_IPONews (net : network) (url : string) : framed (IPONews net url).
Proof. unfold IPONews, requests_get. repeat framed_step. Qed.

#[local] Hint Resolve framed_get_last_max_id framed_update_last_max_id
  framed_send_discord_alert framed_IPONews : framed.

Lemma framed_main (env : environ) (net : network) (clock : nat -> string) :
  framed (main env net clock).
Proof. unfold main, main_try. repeat framed_step. Qed.

Lemma run_frame (env : environ) (net : network) (clock : nat -> string)
  (w : world) :
  run env net clock w
  = extend (mkWorld (files (run env net clock (mkWorld (files w) []))) (trace w))
           (run_events env net clock (mkWorld (files w) [])).
Proof.
  destruct w as [f t]. unfold run, run_events, extend.
  rewrite (framed_main env net clock f t). reflexivity.
Qed.

Lemma run_events_frame (env : environ) (net : network)
  (clock : nat -> string) (w : world) :
  run_events env net clock w
  = trace (run env net clock (mkWorld (files w) [])).
Proof.
  destruct w as [f t]. unfold run_events, run.
  rewrite (framed_main env net clock f t). cbn [snd trace files].
  rewrite skipn_app, skipn_all, Nat.sub_diag. reflexivity.
Qed.

Lemma run_files_frame (env : environ) (net : network)
  (clock : nat -> string) (w : world) :
  files (run env net clock w)
  = files (run env net clock (mkWorld (files w) [])).
Proof.
  destruct w as [f t]. unfold run.
  rewrite (framed_main env net clock f t). reflexivity.
Qed.

(** ** The state store *)

Lemma extend_nil (w : world) : extend w [] = w.
Proof. destruct w. unfold extend. cbn. now rewrite app_nil_r. Qed.

Lemma get_last_max_id_eq (path : string) (w : world) :
  get_last_max_id path w
  = match files w path with
    | Absent => (Ok (JInt 0), extend w [EvLog INFO NoStateFile])
    | Corrupt msg =>
        (Ok (JInt 0),
         extend w [EvLog WARNING (InvalidStateFile (JSONDecodeError msg))])
    | Stored data => (dict_get data "last_max_id" (JInt 0), w)
    | Unreadable e =>
        if state_read_catches e
        then (Ok (JInt 0), extend w [EvLog WARNING (InvalidStateFile e)])
        else (Raise e, w)
    end.
Proof.
  unfold get_last_max_id, bind, os_path_exists, try_except, json_load, lift.
  destruct (files w path) as [|msg|data|e] eqn:E; cbn; rewrite ?E; cbn;
    try reflexivity.
  - destruct data; reflexivity.
  - destruct e; reflexivity.
Qed.

(** The state read, case by case: 0 and an INFO message for a missing file;
    0 and a warning carrying the decoder's error for a file [json.load]
    rejects; the stored value, or 0, and no message for a JSON object with,
    or without, [last_max_id]; and the exception itself, with no message,
    for a file whose reading raises anything the handler does not name. *)
Lemma get_last_max_id_by_case (path : string) (w : world) :
  (files w path = Absent ->
   get_last_max_id path w
   = (Ok (JInt 0), extend w [EvLog INFO NoStateFile])) /\
  (forall msg, files w path = Corrupt msg ->
   get_last_max_id path w
   = (Ok (JInt 0),
      extend w [EvLog WARNING (InvalidStateFile (JSONDecodeError msg))])) /\
  (forall d, files w path = Stored (JDict d) ->
   lookup "last_max_id" d = None ->
   get_last_max_id path w = (Ok (JInt 0), w)) /\
  (forall d v, files w path = Stored (JDict d) ->
   lookup "last_max_id" d = Some v ->
   get_last_max_id path w = (Ok v, w)) /\
  (forall e, files w path = Unreadable e ->
   state_read_catches e = false ->
   get_last_max_id path w = (Raise e, w)).
Proof.
  rewrite get_last_max_id_eq.
  repeat split; intros; repeat match goal with
                        | H : files _ _ = _ |- _ => rewrite H; clear H
                        | H : lookup _ _ = _ |- _ => cbn; rewrite H; clear H
                        | H : state_read_catches _ = _ |- _ =>
                            rewrite H; clear H
                        end; reflexivity.
Qed.

(** ** Delivery *)

(** C9.  When the POST is answered with an error status (4xx or 5xx), or
    when the POST fails with a transport-level [RequestError],
    [send_discord_alert] returns normally; it has logged the status code
    and the response body in the first case and the target of the failed
    request in the second. *)
Theorem send_discord_alert_absorbs (net : network) (payload : json)
  (url : string) (w : world) :
  (forall r, post_reply net url payload = Ok r ->
     400 <= status_code r <= 599 ->
     send_discord_alert net payload url w
     = (Ok tt,
        extend w [EvPrint "Sending webhook to Discord..." url;
                  EvPost url payload [("Content-Type", "application/json")];
                  EvLog ERROR (WebhookFailed (status_code r) (text r))])) /\
  (forall target, post_reply net url payload = Raise (RequestError target) ->
     send_discord_alert net payload url w
     = (Ok tt,
        extend w [EvPrint "Sending webhook to Discord..." url;
                  EvPost url payload [("Content-Type", "application/json")];
                  EvLog ERROR (RequestFailed target)])).
Proof.
  unfold send_discord_alert, httpx_post, try_except, bind, lift, log, extend,
    raise_for_status.
  split.
  - intros r Hr Hcode. cbn. rewrite Hr.
    destruct (Z.leb_spec 200 (status_code r));
      destruct (Z.leb_spec (status_code r) 299); try lia;
      cbn; unfold emit; cbn; rewrite <- !app_assoc; reflexivity.
  - intros target Hr. cbn. rewrite Hr. cbn. unfold emit. cbn.
    rewrite <- !app_assoc. reflexivity.
Qed.

(** ** The run *)

Lemma raise_for_status_raise (r : response) (e : exn) :
  raise_for_status r = Raise e ->
  e = HTTPStatusError (status_code r) (text r).
Proof.
  unfold raise_for_status.
  destruct ((200 <=? status_code r) && (status_code r <=? 299));
    [discriminate | now intros [= <-]].
Qed.

Lemma set_file_same (path : string) (c : file_state)
  (fs : string -> file_state) :
  set_file path c fs path = c.
Proof. unfold set_file. now rewrite String.eqb_refl. Qed.

Lemma read_value_eq (path : string) (w : world) :
  fst (get_last_max_id path w)
  = match files w path with
    | Absent | Corrupt _ => Ok (JInt 0)
    | Stored data => dict_get data "last_max_id" (JInt 0)
    | Unreadable e => if state_read_catches e then Ok (JInt 0) else Raise e
    end.
Proof.
  rewrite get_last_max_id_eq.
  destruct (files w path) as [| | |e]; try reflexivity.
  now destruct (state_read_catches e).
Qed.

Lemma py_iter_len (x : json) (l : list json) :
  py_iter x = Ok l -> exists n, py_len x = Ok n.
Proof. destruct x; cbn; intro H; try discriminate; eauto. Qed.

Ltac crunch :=
  cbv beta iota zeta delta
    [run main main_try try_except bind IPONews requests_get httpx_post lift
     ret log emit send_discord_alert update_last_max_id json_dump extend
     fst snd files trace app negb].

(** Symbolic execution of [main]: one case split per step of the run. *)
Ltac analyse_step :=
  crunch;
  match goal with
  | |- context [get_last_max_id ?p ?w] => rewrite (get_last_max_id_eq p w)
  | |- context [match IPO_NEWS_URL ?e with _ => _ end] =>
      destruct (IPO_NEWS_URL e) eqn:?
  | |- context [match DISCORD_WEBHOOK_URL ?e with _ => _ end] =>
      destruct (DISCORD_WEBHOOK_URL e) eqn:?
  | |- context [match get_reply ?n ?u with _ => _ end] =>
      destruct (get_reply n u) eqn:?
  | |- context [status_code ?r =? 200] =>
      destruct (status_code r =? 200) eqn:?
  | |- context [match json_body ?r with _ => _ end] =>
      destruct (json_body r) eqn:?
  | |- context [feed_is_usable JNull] =>
      change (feed_is_usable JNull) with (@Ok bool false)
  | |- context [match feed_is_usable ?x with _ => _ end] =>
      destruct (feed_is_usable x) as [[|]|] eqn:?
  | |- context [match feed_data ?x with _ => _ end] =>
      destruct (feed_data x) eqn:?
  | |- context [match py_len ?x with _ => _ end] =>
      destruct (py_len x) eqn:?
  | |- context [match ?f default_state_file with _ => _ end] =>
      destruct (f default_state_file) eqn:?
  | |- context [if state_read_catches ?e then _ else _] =>
      destruct (state_read_catches e) eqn:?
  | |- context [match dict_get ?d ?k ?v with _ => _ end] =>
      destruct (dict_get d k v) eqn:?
  | |- context [match diff_step ?a ?l with _ => _ end] =>
      destruct (diff_step a l) as [[? [|? ?]]|] eqn:?
  | |- context [match mapM ipoId_of ?l with _ => _ end] =>
      destruct (mapM ipoId_of l) eqn:?
  | |- context [match create_discord_embed ?c ?l with _ => _ end] =>
      destruct (create_discord_embed c l) eqn:?
  | |- context [match post_reply ?n ?u ?p with _ => _ end] =>
      destruct (post_reply n u p) as [?|[]] eqn:?
  | |- context [match raise_for_status ?r with _ => _ end] =>
      let E := fresh "Estatus" in
      destruct (raise_for_status r) as [[]|?] eqn:E;
      [|apply raise_for_status_raise in E; subst]
  end.

Ltac analyse := repeat analyse_step; crunch.

(** Whatever happens inside, [main] returns normally. *)
Lemma main_returns (env : environ) (net : network) (clock : nat -> string)
  (w : world) :
  fst (main env net clock w) = Ok tt.
Proof. analyse; reflexivity. Qed.

Lemma quiet_run_keeps_files env net clock f :
  existsb is_write (trace (run env net clock (mkWorld f []))) = false ->
  files (run env net clock (mkWorld f [])) = f.
Proof. analyse; solve [reflexivity | cbn; discriminate]. Qed.

Lemma detection_then_write env net clock f :
  existsb is_new_detected (trace (run env net clock (mkWorld f []))) = true ->
  existsb is_crash (trace (run env net clock (mkWorld f []))) = false ->
  existsb is_write (trace (run env net clock (mkWorld f []))) = true.
Proof. analyse; cbn; congruence. Qed.

Lemma post_after_detection env net clock f :
  existsb is_new_detected (trace (run env net clock (mkWorld f []))) = false ->
  existsb is_post (trace (run env net clock (mkWorld f []))) = false /\
  existsb is_write (trace (run env net clock (mkWorld f []))) = false.
Proof. analyse; cbn; intuition congruence. Qed.


(** Replaying a run whose steps are known from equations in the context. *)
Ltac replay :=
  repeat (crunch;
          first [ rewrite get_last_max_id_eq
                | match goal with
                  | H : ?x = _ |- context [?x] => rewrite H
                  end ]);
  crunch.

(** A run that detects nothing new does not look at the webhook side of
    the network nor at the clock. *)
Lemma quiet_run_deterministic env net net' clock clock' f :
  get_reply net' = get_reply net ->
  existsb is_new_detected (trace (run env net clock (mkWorld f []))) = false ->
  run env net' clock' (mkWorld f []) = run env net clock (mkWorld f []).
Proof.
  intro Hnet.
  remember (run env net' clock' (mkWorld f [])) as r2 eqn:E2.
  analyse; intro Hq; try (cbn in Hq; discriminate Hq);
    subst r2; replay; reflexivity.
Qed.

(** A state write happens only at the end of a run that found new entries
    and got through rendering and delivery. *)
Lemma write_inversion env net clock f path data :
  In (EvWrite path data) (trace (run env net clock (mkWorld f []))) ->
  exists all_data last mx new_data n ids,
    usable_fetch env net all_data /\
    fst (get_last_max_id default_state_file (mkWorld f [])) = Ok last /\
    diff_step all_data last = Ok (mx, new_data) /\
    new_data <> [] /\
    path = default_state_file /\
    data = JDict [("last_max_id", mx)] /\
    files (run env net clock (mkWorld f []))
    = set_file default_state_file (Stored data) f /\
    In (EvLog INFO (NewDetected n ids))
       (trace (run env net clock (mkWorld f []))) /\
    (0 < n)%nat.
Proof.
  analyse; cbn [In]; intro Hin;
    repeat match goal with
           | H : _ \/ _ |- _ => destruct H as [H | H]
           | H : False |- _ => contradiction H
           | H : _ = EvWrite _ _ |- _ => try discriminate H; injection H as <- <-
           end.
  all: match goal with
       | H1 : IPO_NEWS_URL _ = Some ?u, H2 : DISCORD_WEBHOOK_URL _ = Some ?h,
         H3 : get_reply _ _ = Ok ?r, H4 : (status_code ?r =? 200) = true,
         H5 : json_body ?r = Ok ?j, H6 : feed_is_usable ?j = Ok true,
         H7 : feed_data ?j = Ok ?d |- _ =>
           assert (Hfetch : usable_fetch env net d)
             by (exists u, h, r, j; repeat split; auto; now apply Z.eqb_eq)
       end.
  all: match goal with
       | Hd : diff_step ?a ?l = Ok (?mx, ?new),
         Hm : mapM ipoId_of ?new = Ok ?ids |- _ =>
           exists a, l, mx, new, (List.length new), ids
       end.
  all: repeat match goal with |- _ /\ _ => split end;
       try assumption; try discriminate; try reflexivity.
  all: try (cbn [In]; tauto).
  all: try (cbn; lia).
Qed.

Lemma diff_step_len (all_data last : json) (d : json * list json) :
  diff_step all_data last = Ok d -> exists n, py_len all_data = Ok n.
Proof.
  unfold diff_step. destruct (py_iter all_data) as [items|e] eqn:E;
    [|discriminate].
  intros _. exact (py_iter_len all_data items E).
Qed.

(** The run of a usable fetch that holds nothing new. *)
Lemma no_new_run env net clock f all_data last mx :
  usable_fetch env net all_data ->
  fst (get_last_max_id default_state_file (mkWorld f [])) = Ok last ->
  diff_step all_data last = Ok (mx, []) ->
  exists evs,
    run env net clock (mkWorld f []) = mkWorld f evs /\
    existsb is_new_detected evs = false /\
    existsb is_post evs = false /\
    existsb is_write evs = false /\
    existsb is_crash evs = false /\
    In (EvLog INFO (NoNew mx last)) evs.
Proof.
  intros (initial_url & hook & resp & ipo_news
          & Hurl & Hhook & Hget & Hcode & Hbody & Husable & Hdata) Hlast Hdiff.
  destruct (diff_step_len _ _ _ Hdiff) as (n & Hlen).
  apply Z.eqb_eq in Hcode.
  rewrite read_value_eq in Hlast. cbn [files] in Hlast.
  destruct (f default_state_file) as [|msg|data|e] eqn:Hfile;
    [ | | |destruct (state_read_catches e) eqn:Hcatch; [|discriminate]];
    try (injection Hlast as <-);
    eexists; (split; [replay; reflexivity|]);
    cbn; auto 10.
Qed.

Lemma empty_data_unusable (ipo_news res : json) :
  getitem ipo_news "result" = Ok res ->
  getitem res "data" = Ok (JList []) ->
  feed_is_usable ipo_news = Ok false.
Proof.
  destruct ipo_news as [| | | | |d]; try discriminate. cbn [getitem].
  destruct (lookup "result" d) as [r|] eqn:Hres; [|discriminate].
  intros [= ->].
  destruct res as [| | | | |d']; try discriminate. cbn [getitem].
  destruct (lookup "data" d') as [x|] eqn:Hx; [|discriminate].
  intros [= ->].
  unfold feed_is_usable. cbn [dict_get rbind].
  destruct d as [|kv d]; [discriminate|]. cbn [truthy negb].
  destruct (py_eq _ (JInt 200)); cbn [negb]; [|reflexivity].
  rewrite Hres. cbn [rbind dict_get]. rewrite Hx. reflexivity.
Qed.

(** The run of a fetch whose body fails the shape check. *)
Lemma unusable_run env net clock f initial_url hook resp ipo_news :
  IPO_NEWS_URL env = Some initial_url ->
  DISCORD_WEBHOOK_URL env = Some hook ->
  get_reply net (feed_url initial_url) = Ok resp ->
  status_code resp = 200 ->
  json_body resp = Ok ipo_news ->
  feed_is_usable ipo_news = Ok false ->
  run env net clock (mkWorld f [])
  = mkWorld f [EvGet (feed_url initial_url); EvLog INFO NoNews].
Proof.
  intros Hurl Hhook Hget Hcode Hbody Husable.
  apply Z.eqb_eq in Hcode. replay. reflexivity.
Qed.

(** From the empty trace to any trace. *)
Lemma run_lift env net clock w f' evs :
  run env net clock (mkWorld (files w) []) = mkWorld f' evs ->
  run env net clock w = mkWorld f' (trace w ++ evs) /\
  run_events env net clock w = evs.
Proof.
  destruct w as [f t]. cbn [files trace]. unfold run_events, run.
  intro H. rewrite (framed_main env net clock f t).
  cbn [snd files trace]. rewrite H. cbn [files trace]. split; [reflexivity|].
  rewrite skipn_app, skipn_all, Nat.sub_diag. reflexivity.
Qed.

Lemma watermark_files (w1 w2 : world) :
  files w1 default_state_file = files w2 default_state_file ->
  watermark w1 = watermark w2.
Proof.
  intro H. unfold watermark. rewrite !read_value_eq, H. reflexivity.
Qed.

Lemma usable_fetch_same_feed env net net' all_data :
  get_reply net' = get_reply net ->
  usable_fetch env net all_data -> usable_fetch env net' all_data.
Proof.
  intros Hnet (u & h & r & j & H). exists u, h, r, j. now rewrite Hnet.
Qed.

Lemma existsb_write_inv (evs : list event) :
  existsb is_write evs = true ->
  exists path data, In (EvWrite path data) evs.
Proof.
  intro H. apply existsb_exists in H as (ev & Hin & Hw).
  destruct ev; try discriminate. eauto.
Qed.

Lemma no_write_not_in (evs : list event) path data :
  existsb is_write evs = false -> ~ In (EvWrite path data) evs.
Proof.
  intros H Hin.
  assert (existsb is_write evs = true)
    by (apply existsb_exists; eexists; split; [exact Hin | reflexivity]).
  congruence.
Qed.

(** C8.  Whenever the fetch succeeds with usable data and the diff step
    finds no new entry, the run returns normally, leaves every file as it
    was, posts nothing, writes nothing, and logs the current and the last
    maximum identifier. *)
Theorem no_new_entries_no_effect env net clock w all_data last mx :
  usable_fetch env net all_data ->
  fst (get_last_max_id default_state_file w) = Ok last ->
  diff_step all_data last = Ok (mx, []) ->
  fst (main env net clock w) = Ok tt /\
  files (run env net clock w) = files w /\
  existsb is_post (run_events env net clock w) = false /\
  existsb is_write (run_events env net clock w) = false /\
  In (EvLog INFO (NoNew mx last)) (run_events env net clock w).
Proof.
  intros Hfetch Hlast Hdiff.
  assert (Hlast0 : fst (get_last_max_id default_state_file
                          (mkWorld (files w) [])) = Ok last)
    by (rewrite read_value_eq in *; exact Hlast).
  destruct (no_new_run env net clock (files w) all_data last mx
              Hfetch Hlast0 Hdiff)
    as (evs & Hrun & _ & Hpost & Hwrite & _ & Hlog).
  destruct (run_lift env net clock w _ _ Hrun) as (Hw & Hevs).
  rewrite Hevs, Hw. split; [apply main_returns|]. auto.
Qed.

(** C10.  A state write occurs only in a run whose diff step found new
    entries, it writes the maximum of the fetched identifiers, and that
    maximum is strictly above the stored watermark the run read.  A
    response whose [result.data] is an empty array fails the shape check
    like any other unusable response: the run only logs that nothing was
    fetched, so no diff, no notification and no state write happen. *)
Theorem state_written_only_above_watermark env net clock w :
  (forall path data,
     In (EvWrite path data) (run_events env net clock w) ->
     exists all_data last mx new_data,
       usable_fetch env net all_data /\
       fst (get_last_max_id default_state_file w) = Ok last /\
       diff_step all_data last = Ok (mx, new_data) /\
       new_data <> [] /\
       path = default_state_file /\
       data = JDict [("last_max_id", mx)] /\
       (forall m, as_num last = Some m ->
                  exists m', as_num mx = Some m' /\ m < m')) /\
  (forall initial_url hook resp ipo_news,
     IPO_NEWS_URL env = Some initial_url ->
     DISCORD_WEBHOOK_URL env = Some hook ->
     get_reply net (feed_url initial_url) = Ok resp ->
     status_code resp = 200 ->
     json_body resp = Ok ipo_news ->
     (exists res, getitem ipo_news "result" = Ok res /\
                  getitem res "data" = Ok (JList [])) \/
     feed_is_usable ipo_news = Ok false ->
     run env net clock w
     = extend w [EvGet (feed_url initial_url); EvLog INFO NoNews]).
Proof.
  split.
  - intros path data Hin. rewrite run_events_frame in Hin.
    destruct (write_inversion env net clock (files w) path data Hin)
      as (all_data & last & mx & new_data & n & ids
          & Hfetch & Hlast & Hdiff & Hne & Hpath & Hdata & _).
    exists all_data, last, mx, new_data.
    repeat match goal with |- _ /\ _ => split end; auto.
    + rewrite read_value_eq in *. exact Hlast.
    + intros m Hm.
      destruct (diff_step_advances all_data last mx new_data m Hm Hdiff Hne)
        as (m' & Hm' & Hlt & _).
      eauto.
  - intros initial_url hook resp ipo_news Hurl Hhook Hget Hcode Hbody Hbad.
    assert (Husable : feed_is_usable ipo_news = Ok false).
    { destruct Hbad as [(res & Hres & Hempty) | H]; [|exact H].
      exact (empty_data_unusable ipo_news res Hres Hempty). }
    pose proof (unusable_run env net clock (files w) initial_url hook resp
                  ipo_news Hurl Hhook Hget Hcode Hbody Husable) as Hrun.
    destruct (run_lift env net clock w _ _ Hrun) as (Hw & _).
    exact Hw.
Qed.

(** C3.  From a numeric watermark [m], every run leaves a numeric
    watermark [m'] with [m <= m']; and when the run persists a value (it
    completed with new entries), that value is [m'] and it is above [m]. *)
Theorem watermark_monotone env net clock w m :
  watermark w = Some m ->
  exists m',
    watermark (run env net clock w) = Some m' /\ m <= m' /\
    (forall path data,
       In (EvWrite path data) (run_events env net clock w) ->
       path = default_state_file /\
       exists v, data = JDict [("last_max_id", v)] /\
                 as_num v = Some m' /\ m < m').
Proof.
  intro Hm.
  set (r0 := run env net clock (mkWorld (files w) [])).
  assert (Hfiles : files (run env net clock w) = files r0)
    by apply run_files_frame.
  rewrite run_events_frame. fold r0.
  destruct (existsb is_write (trace r0)) eqn:Hw.
  - destruct (existsb_write_inv _ Hw) as (path & data & Hin).
    destruct (write_inversion env net clock (files w) path data Hin)
      as (all_data & last & mx & new_data & n & ids
          & _ & Hlast & Hdiff & Hne & -> & -> & Hf & _).
    fold r0 in Hf.
    assert (Hnum : as_num last = Some m).
    { unfold watermark in Hm. rewrite read_value_eq in *.
      cbn [files] in Hlast. rewrite Hlast in Hm. exact Hm. }
    destruct (diff_step_advances all_data last mx new_data m Hnum Hdiff Hne)
      as (m' & Hm' & Hlt & _).
    exists m'. split; [|split; [lia|]].
    + unfold watermark. rewrite read_value_eq, Hfiles, Hf, set_file_same.
      exact Hm'.
    + intros path data Hin'.
      destruct (write_inversion env net clock (files w) path data Hin')
        as (_ & _ & mx' & _ & _ & _ & _ & _ & _ & _ & -> & -> & Hf' & _).
      fold r0 in Hf'. split; [reflexivity|].
      assert (E : Stored (JDict [("last_max_id", mx')])
                  = Stored (JDict [("last_max_id", mx)])).
      { rewrite <- (set_file_same default_state_file
                      (Stored (JDict [("last_max_id", mx')])) (files w)).
        rewrite <- Hf', Hf. apply set_file_same. }
      injection E as ->. eauto.
  - exists m. split; [|split; [lia|]].
    + rewrite <- Hm. apply watermark_files.
      rewrite Hfiles. unfold r0.
      now rewrite (quiet_run_keeps_files env net clock (files w) Hw).
    + intros path data Hin. exfalso.
      exact (no_write_not_in _ path data Hw Hin).
Qed.

(** C4 (as amended).  With the same settings and an unchanged feed, when
    the state holds a numeric watermark (or none) and the first run does
    not end in the exception handler of [main], the second run finds no
    new entry, posts nothing, writes nothing and leaves every file as the
    first run left it. *)
Theorem second_run_finds_nothing env net1 net2 clock1 clock2 w m :
  get_reply net2 = get_reply net1 ->
  watermark w = Some m ->
  existsb is_crash (run_events env net1 clock1 w) = false ->
  existsb is_new_detected
    (run_events env net2 clock2 (run env net1 clock1 w)) = false /\
  existsb is_post
    (run_events env net2 clock2 (run env net1 clock1 w)) = false /\
  existsb is_write
    (run_events env net2 clock2 (run env net1 clock1 w)) = false /\
  files (run env net2 clock2 (run env net1 clock1 w))
  = files (run env net1 clock1 w).
Proof.
  intros Hnet Hm Hcrash.
  set (r1 := run env net1 clock1 (mkWorld (files w) [])).
  rewrite run_events_frame in Hcrash. fold r1 in Hcrash.
  rewrite !run_events_frame, (run_files_frame env net2).
  rewrite (run_files_frame env net1 clock1 w). fold r1.
  destruct (existsb is_new_detected (trace r1)) eqn:Hdet.
  - pose proof (detection_then_write env net1 clock1 (files w) Hdet Hcrash)
      as Hw.
    destruct (existsb_write_inv _ Hw) as (path & data & Hin).
    destruct (write_inversion env net1 clock1 (files w) path data Hin)
      as (all_data & last & mx & new_data & n & ids
          & Hfetch & Hlast & Hdiff & Hne & -> & -> & Hf & _).
    fold r1 in Hf.
    assert (Hnum : as_num last = Some m).
    { unfold watermark in Hm. rewrite read_value_eq in *.
      cbn [files] in Hlast. rewrite Hlast in Hm. exact Hm. }
    destruct (diff_step_advances all_data last mx new_data m Hnum Hdiff Hne)
      as (m' & _ & _ & Hagain).
    assert (Hread : fst (get_last_max_id default_state_file
                           (mkWorld (files r1) [])) = Ok mx).
    { rewrite read_value_eq. cbn [files]. rewrite Hf, set_file_same.
      reflexivity. }
    destruct (no_new_run env net2 clock2 (files r1) all_data mx mx
                (usable_fetch_same_feed env net1 net2 all_data Hnet Hfetch)
                Hread Hagain)
      as (evs & Hrun & Hd & Hp & Hwr & _).
    rewrite Hrun. cbn [files trace]. auto.
  - destruct (post_after_detection env net1 clock1 (files w) Hdet)
      as (Hp & Hw).
    fold r1 in Hp, Hw.
    assert (Hf : files r1 = files w)
      by exact (quiet_run_keeps_files env net1 clock1 (files w) Hw).
    rewrite Hf.
    rewrite (quiet_run_deterministic env net1 net2 clock1 clock2 (files w)
               Hnet Hdet).
    fold r1. auto.
Qed.

(** ** Rendering *)

Lemma has_elim (p : json -> bool) (ipo : json) (k : string) :
  has p ipo k = true -> exists v, getitem ipo k = Ok v /\ p v = true.
Proof.
  unfold has. destruct (getitem ipo k) as [v|e]; [eauto | discriminate].
Qed.

Lemma format_number_total (v : json) :
  int_like v = true -> exists r, format_number v = Ok r.
Proof.
  destruct v; try discriminate; intros _; cbn [format_number];
    try destruct (py_int s); try destruct (py_format_comma _); eauto.
Qed.

Lemma embed_for_total (stamp : string) (ipo : json) :
  well_formed_entry ipo = true -> exists e, embed_for stamp ipo = Ok e.
Proof.
  unfold well_formed_entry. intro H.
  repeat match goal with
         | H : _ && _ = true |- _ => apply andb_true_iff in H as [H ?]
         end.
  repeat match goal with
         | H : has _ _ _ = true |- _ =>
             apply has_elim in H as (? & ? & ?)
         end.
  repeat match goal with
         | H : int_like _ = true |- _ =>
             apply format_number_total in H as (? & H)
         | H : is_str ?v = true |- _ =>
             destruct v; try discriminate H; clear H
         end.
  unfold embed_for.
  repeat match goal with
         | H : ?x = Ok _ |- context [?x] => rewrite H; cbn [rbind]
         end.
  cbn [str_lower str_capitalize rbind].
  repeat match goal with
         | H : ?x = Ok _ |- context [?x] => rewrite H; cbn [rbind]
         end.
  eexists. reflexivity.
Qed.

Lemma embeds_from_spec (clock : nat -> string) (l : list json) : forall i,
  forallb well_formed_entry l = true ->
  exists embeds,
    embeds_from clock i l = Ok embeds /\
    List.length embeds = List.length l /\
    forall j ipo, nth_error l j = Some ipo ->
      exists e, nth_error embeds j = Some e /\
                embed_for (clock (i + j)%nat) ipo = Ok e.
Proof.
  induction l as [|ipo l IH]; intros i H.
  - exists []. repeat split; auto. intros [|j] ? ?; discriminate.
  - cbn [forallb] in H. apply andb_true_iff in H as [Hipo Hl].
    destruct (embed_for_total (clock i) ipo Hipo) as (e & He).
    destruct (IH (S i) Hl) as (es & Hes & Hlen & Hnth).
    exists (e :: es). cbn [embeds_from]. rewrite He. cbn [rbind].
    rewrite Hes. cbn [rbind]. repeat split; [cbn; lia|].
    intros [|j] x Hx; cbn [nth_error] in *.
    + injection Hx as <-. exists e. now rewrite Nat.add_0_r.
    + destruct (Hnth j x Hx) as (e' & He' & Hr). exists e'.
      now rewrite Nat.add_succ_r.
Qed.

(** C6.  Rendering a list whose first three entries are well formed gives a
    payload with one embed per entry among the first three, in input
    order: exactly 3 embeds for more than 3 entries, one per entry for a
    shorter list.  The cut to three that [main] makes before the call
    changes nothing. *)
Theorem embeds_are_first_three (clock : nat -> string) (ipo_data : list json) :
  forallb well_formed_entry (firstn 3 ipo_data) = true ->
  exists embeds,
    create_discord_embed clock ipo_data = Ok (payload_of embeds) /\
    create_discord_embed clock (firstn 3 ipo_data) = Ok (payload_of embeds) /\
    getitem (payload_of embeds) "embeds" = Ok (JList embeds) /\
    List.length embeds = Nat.min 3 (List.length ipo_data) /\
    ((3 < List.length ipo_data)%nat -> List.length embeds = 3%nat) /\
    ((List.length ipo_data <= 3)%nat ->
     List.length embeds = List.length ipo_data) /\
    forall i ipo, (i < 3)%nat -> nth_error ipo_data i = Some ipo ->
      exists e, nth_error embeds i = Some e /\
                embed_for (clock i) ipo = Ok e.
Proof.
  intro H.
  destruct (embeds_from_spec clock (firstn 3 ipo_data) 0 H)
    as (embeds & Hes & Hlen & Hnth).
  rewrite length_firstn in Hlen.
  exists embeds. unfold create_discord_embed.
  rewrite firstn_firstn, Nat.min_id, Hes. cbn [rbind].
  repeat split; auto; try lia.
  intros i ipo Hi Hipo. apply (Hnth i ipo).
  rewrite nth_error_firstn.
  destruct (Nat.ltb_spec i 3); [assumption | lia].
Qed.

(** ** Instances on the sample data *)

Lemma diff_step_new_entries_witness :
  exists max_id,
    diff_step (JList three_entries) (JInt 101)
    = Ok (max_id, filter (id_above 101) three_entries).
Proof.
  apply (diff_step_new_entries three_entries [101; 102; 103] (JInt 101) 101).
  - repeat constructor.
  - reflexivity.
Defined.

Lemma diff_step_new_max_witness :
  exists mx new_entries,
    diff_step (JList three_entries) (JInt 102) = Ok (JInt mx, new_entries) /\
    (three_entries <> [] -> is_max_of mx [101; 102; 103]) /\
    (three_entries = [] -> mx = 0).
Proof.
  apply (diff_step_new_max three_entries [101; 102; 103] (JInt 102) 102).
  - repeat constructor.
  - reflexivity.
Defined.

Lemma watermark_monotone_witness :
  exists m',
    watermark (run sample_env (sample_net (sample_feed three_entries) no_content)
                   sample_clock (world_with (stored_watermark 100)))
    = Some m' /\ 100 <= m' /\
    (forall path data,
       In (EvWrite path data)
          (run_events sample_env
             (sample_net (sample_feed three_entries) no_content)
             sample_clock (world_with (stored_watermark 100))) ->
       path = default_state_file /\
       exists v, data = JDict [("last_max_id", v)] /\
                 as_num v = Some m' /\ 100 < m').
Proof.
  apply (watermark_monotone sample_env
           (sample_net (sample_feed three_entries) no_content)
           sample_clock (world_with (stored_watermark 100)) 100).
  reflexivity.
Defined.

Lemma second_run_finds_nothing_witness :
  existsb is_new_detected
    (run_events sample_env (sample_net (sample_feed three_entries) no_content)
       sample_clock
       (run sample_env (sample_net (sample_feed three_entries) no_content)
            sample_clock (world_with (stored_watermark 100)))) = false /\
  existsb is_post
    (run_events sample_env (sample_net (sample_feed three_entries) no_content)
       sample_clock
       (run sample_env (sample_net (sample_feed three_entries) no_content)
            sample_clock (world_with (stored_watermark 100)))) = false /\
  existsb is_write
    (run_events sample_env (sample_net (sample_feed three_entries) no_content)
       sample_clock
       (run sample_env (sample_net (sample_feed three_entries) no_content)
            sample_clock (world_with (stored_watermark 100)))) = false /\
  files (run sample_env (sample_net (sample_feed three_entries) no_content)
           sample_clock
           (run sample_env (sample_net (sample_feed three_entries) no_content)
                sample_clock (world_with (stored_watermark 100))))
  = files (run sample_env (sample_net (sample_feed three_entries) no_content)
             sample_clock (world_with (stored_watermark 100))).
Proof.
  apply (second_run_finds_nothing sample_env
           (sample_net (sample_feed three_entries) no_content)
           (sample_net (sample_feed three_entries) no_content)
           sample_clock sample_clock (world_with (stored_watermark 100)) 100).
  - reflexivity.
  - reflexivity.
  - vm_compute. reflexivity.
Defined.

Lemma embeds_are_first_three_witness :
  exists embeds,
    create_discord_embed sample_clock (three_entries ++ [open_entry 104])
    = Ok (payload_of embeds) /\
    create_discord_embed sample_clock
      (firstn 3 (three_entries ++ [open_entry 104]))
    = Ok (payload_of embeds) /\
    getitem (payload_of embeds) "embeds" = Ok (JList embeds) /\
    List.length embeds
    = Nat.min 3 (List.length (three_entries ++ [open_entry 104])) /\
    ((3 < List.length (three_entries ++ [open_entry 104]))%nat ->
     List.length embeds = 3%nat) /\
    ((List.length (three_entries ++ [open_entry 104]) <= 3)%nat ->
     List.length embeds = List.length (three_entries ++ [open_entry 104])) /\
    forall i ipo, (i < 3)%nat ->
      nth_error (three_entries ++ [open_entry 104]) i = Some ipo ->
      exists e, nth_error embeds i = Some e /\
                embed_for (sample_clock i) ipo = Ok e.
Proof.
  apply (embeds_are_first_three sample_clock
           (three_entries ++ [open_entry 104])).
  reflexivity.
Defined.

Lemma no_new_entries_no_effect_witness :
  fst (main sample_env (sample_net (sample_feed three_entries) no_content)
         sample_clock (world_with (stored_watermark 103))) = Ok tt /\
  files (run sample_env (sample_net (sample_feed three_entries) no_content)
           sample_clock (world_with (stored_watermark 103)))
  = files (world_with (stored_watermark 103)) /\
  existsb is_post
    (run_events sample_env (sample_net (sample_feed three_entries) no_content)
       sample_clock (world_with (stored_watermark 103))) = false /\
  existsb is_write
    (run_events sample_env (sample_net (sample_feed three_entries) no_content)
       sample_clock (world_with (stored_watermark 103))) = false /\
  In (EvLog INFO (NoNew (JInt 103) (JInt 103)))
     (run_events sample_env (sample_net (sample_feed three_entries) no_content)
        sample_clock (world_with (stored_watermark 103))).
Proof.
  apply (no_new_entries_no_effect sample_env
           (sample_net (sample_feed three_entries) no_content) sample_clock
           (world_with (stored_watermark 103)) (JList three_entries)
           (JInt 103) (JInt 103)).
  - exists "https://feed.example/ipo", "https://hook.example/w",
      (mkResponse 200 "" (Ok (sample_feed three_entries))),
      (sample_feed three_entries).
    repeat split; reflexivity.
  - reflexivity.
  - reflexivity.
Defined.

Lemma send_discord_alert_absorbs_witness :
  send_discord_alert
    (sample_net JNull (Ok (mkResponse 404 "Unknown Webhook" (Ok JNull))))
    (payload_of []) "https://hook.example/w" (world_with Absent)
  = (Ok tt,
     extend (world_with Absent)
       [EvPrint "Sending webhook to Discord..." "https://hook.example/w";
        EvPost "https://hook.example/w" (payload_of [])
               [("Content-Type", "application/json")];
        EvLog ERROR (WebhookFailed 404 "Unknown Webhook")]) /\
  send_discord_alert
    (sample_net JNull (Raise (RequestError "https://hook.example/w")))
    (payload_of []) "https://hook.example/w" (world_with Absent)
  = (Ok tt,
     extend (world_with Absent)
       [EvPrint "Sending webhook to Discord..." "https://hook.example/w";
        EvPost "https://hook.example/w" (payload_of [])
               [("Content-Type", "application/json")];
        EvLog ERROR (RequestFailed "https://hook.example/w")]).
Proof.
  split.
  - apply (proj1 (send_discord_alert_absorbs
             (sample_net JNull (Ok (mkResponse 404 "Unknown Webhook" (Ok JNull))))
             (payload_of []) "https://hook.example/w" (world_with Absent))
             (mkResponse 404 "Unknown Webhook" (Ok JNull))).
    + reflexivity.
    + simpl. lia.
  - apply (proj2 (send_discord_alert_absorbs
             (sample_net JNull (Raise (RequestError "https://hook.example/w")))
             (payload_of []) "https://hook.example/w" (world_with Absent))
             "https://hook.example/w").
    reflexivity.
Defined.

Lemma state_written_only_above_watermark_witness :
  (exists all_data last mx new_data,
     usable_fetch sample_env
       (sample_net (sample_feed three_entries) no_content) all_data /\
     fst (get_last_max_id default_state_file
            (world_with (stored_watermark 100))) = Ok last /\
     diff_step all_data last = Ok (mx, new_data) /\
     new_data <> [] /\
     default_state_file = default_state_file /\
     JDict [("last_max_id", JInt 103)] = JDict [("last_max_id", mx)] /\
     (forall m, as_num last = Some m ->
                exists m', as_num mx = Some m' /\ m < m')) /\
  run sample_env (sample_net (sample_feed []) no_content) sample_clock
      (world_with (stored_watermark 100))
  = extend (world_with (stored_watermark 100))
      [EvGet (feed_url "https://feed.example/ipo"); EvLog INFO NoNews].
Proof.
  split.
  - apply (proj1 (state_written_only_above_watermark sample_env
             (sample_net (sample_feed three_entries) no_content) sample_clock
             (world_with (stored_watermark 100)))
             default_state_file (JDict [("last_max_id", JInt 103)])).
    vm_compute. do 6 right. left. reflexivity.
  - apply (proj2 (state_written_only_above_watermark sample_env
             (sample_net (sample_feed []) no_content) sample_clock
             (world_with (stored_watermark 100)))
             "https://feed.example/ipo" "https://hook.example/w"
             (mkResponse 200 "" (Ok (sample_feed [])))
             (sample_feed [])); try reflexivity.
    left. exists (JDict [("data", JList [])]). split; reflexivity.
Defined.

(** ** Where the specification and the code part *)

(** C4, as stated, fails: an entry whose [status] is [null] makes the
    rendering raise, the handler of [main] absorbs the exception before
    the state is written, and the next run over the same feed finds the
    same new entry again. *)
Lemma crashed_run_repeats_detection :
  run_events sample_env
    (sample_net (sample_feed [null_status_entry]) no_content) sample_clock
    (world_with Absent)
  = [EvGet (feed_url "https://feed.example/ipo"); EvLog INFO (Fetched 1);
     EvLog INFO NoStateFile; EvLog INFO (NewDetected 1 [JInt 101]);
     EvLog ERROR (ErrorOccurred (AttributeError "lower"))] /\
  existsb is_new_detected
    (run_events sample_env
       (sample_net (sample_feed [null_status_entry]) no_content) sample_clock
       (run sample_env
          (sample_net (sample_feed [null_status_entry]) no_content)
          sample_clock (world_with Absent))) = true.
Proof. split; vm_compute; reflexivity. Qed.

(** C5.  The code at the state file [{"wrong_key": 5}]: the read returns 0
    and logs nothing, so the missing field leaves no message at all, where
    the claim has a warning that tells it from a missing file.  The handler
    of [get_last_max_id] names [KeyError] and logs that warning, but
    [data.get("last_max_id", 0)] never raises it. *)
Lemma wrong_key_read_is_silent :
  get_last_max_id default_state_file
    (world_with (Stored (JDict [("wrong_key", JInt 5)])))
  = (Ok (JInt 0), world_with (Stored (JDict [("wrong_key", JInt 5)]))) /\
  trace (snd (get_last_max_id default_state_file
                (world_with (Stored (JDict [("wrong_key", JInt 5)]))))) = [] /\
  trace (snd (get_last_max_id default_state_file (world_with Absent)))
  = [EvLog INFO NoStateFile] /\
  trace (snd (get_last_max_id default_state_file
                (world_with (Corrupt "Expecting value"))))
  = [EvLog WARNING (InvalidStateFile (JSONDecodeError "Expecting value"))].
Proof. repeat split. Qed.

(** A state file holding JSON that is not an object is not absorbed: the
    read raises to its caller. *)
Example non_object_state_raises :
  fst (get_last_max_id default_state_file
         (world_with (Stored (JList [JInt 1]))))
  = Raise (AttributeError "get").
Proof. reflexivity. Qed.

(** Nor is a state file that cannot be read as text: the exception of the
    reading goes to the caller, and in a run to the handler of [main]. *)
Example undecodable_state_raises :
  get_last_max_id default_state_file
    (world_with (Unreadable (OtherError "UnicodeDecodeError")))
  = (Raise (OtherError "UnicodeDecodeError"),
     world_with (Unreadable (OtherError "UnicodeDecodeError"))) /\
  run_events sample_env (sample_net (sample_feed three_entries) no_content)
    sample_clock (world_with (Unreadable (OtherError "UnicodeDecodeError")))
  = [EvGet (feed_url "https://feed.example/ipo"); EvLog INFO (Fetched 3);
     EvLog ERROR (ErrorOccurred (OtherError "UnicodeDecodeError"))].
Proof. split; vm_compute; reflexivity. Qed.

(** The first end-to-end scenario: identifiers 101, 102, 103 over the
    watermark 100. *)
Example scenario_three_new :
  diff_step (JList three_entries) (JInt 100) = Ok (JInt 103, three_entries) /\
  map is_post
    (run_events sample_env (sample_net (sample_feed three_entries) no_content)
       sample_clock (world_with (stored_watermark 100)))
  = [false; false; false; false; true; false; false; false] /\
  files (run sample_env (sample_net (sample_feed three_entries) no_content)
           sample_clock (world_with (stored_watermark 100)))
        default_state_file
  = stored_watermark 103.
Proof. repeat split; vm_compute; reflexivity. Qed.

(** The second one: identifiers 101, 102 over the watermark 102. *)
Example scenario_nothing_new :
  run_events sample_env
    (sample_net (sample_feed [open_entry 101; open_entry 102]) no_content)
    sample_clock (world_with (stored_watermark 102))
  = [EvGet (feed_url "https://feed.example/ipo"); EvLog INFO (Fetched 2);
     EvLog INFO (NoNew (JInt 102) (JInt 102))].
Proof. vm_compute. reflexivity. Qed.

(** The third one: the feed answers 500. *)
Example scenario_feed_error :
  run_events sample_env
    (mkNetwork (fun _ => Ok (mkResponse 500 "" (Ok JNull)))
               (fun _ _ => no_content))
    sample_clock (world_with (stored_watermark 102))
  = [EvGet (feed_url "https://feed.example/ipo");
     EvLog ERROR (FetchFailed 500); EvLog INFO NoNews].
Proof. vm_compute. reflexivity. Qed.

(** * Further properties of the code *)

(** ** The state store *)

(** X2.  Reading the state never changes a file and adds at most one event
    to the trace, which is a log message. *)
Theorem state_read_is_read_only (path : string) (w : world) :
  files (snd (get_last_max_id path w)) = files w /\
  exists evs,
    trace (snd (get_last_max_id path w)) = (trace w ++ evs)%list /\
    (List.length evs <= 1)%nat /\
    forallb is_log evs = true.
Proof.
  rewrite get_last_max_id_eq.
  destruct (files w path) as [| | |e];
    [ | | |destruct (state_read_catches e)];
    cbn; (split; [reflexivity|]).
  - eexists. repeat split. cbn. lia.
  - eexists. repeat split. cbn. lia.
  - exists []. rewrite app_nil_r. repeat split. cbn. lia.
  - eexists. repeat split. cbn. lia.
  - exists []. rewrite app_nil_r. repeat split. cbn. lia.
Qed.

(** X3.  A state file whose JSON is not an object is not absorbed by the
    read: [data.get] raises [AttributeError], nothing is logged.  In a run
    with a usable fetch the exception ends in the handler of [main]: the
    run posts nothing, writes nothing and leaves the file as it is, so
    every later run over that state ends the same way. *)
Theorem non_object_state_blocks_run env net clock w all_data n v :
  files w default_state_file = Stored v ->
  is_dict v = false ->
  usable_fetch env net all_data ->
  py_len all_data = Ok n ->
  get_last_max_id default_state_file w = (Raise (AttributeError "get"), w) /\
  files (run env net clock w) = files w /\
  In (EvLog ERROR (ErrorOccurred (AttributeError "get")))
     (run_events env net clock w) /\
  existsb is_post (run_events env net clock w) = false /\
  existsb is_write (run_events env net clock w) = false.
Proof.
  intros Hfile Hnot (initial_url & hook & resp & ipo_news
                     & Hurl & Hhook & Hget & Hcode & Hbody & Husable & Hdata)
         Hlen.
  assert (Hraise : dict_get v "last_max_id" (JInt 0)
                   = Raise (AttributeError "get"))
    by (destruct v; try reflexivity; discriminate).
  split.
  - rewrite get_last_max_id_eq, Hfile, Hraise. reflexivity.
  - apply Z.eqb_eq in Hcode.
    assert (Hrun : forall f, f default_state_file = Stored v ->
                   run env net clock (mkWorld f [])
                   = mkWorld f
                       [EvGet (feed_url initial_url); EvLog INFO (Fetched n);
                        EvLog ERROR (ErrorOccurred (AttributeError "get"))])
      by (intros f Hf; replay; reflexivity).
    destruct (run_lift env net clock w _ _ (Hrun (files w) Hfile))
      as (Hw & Hevs).
    rewrite Hevs, Hw. cbn. repeat split; auto.
Qed.

(** ** The run *)

(** X4.  [main] never raises: whatever the settings, the network and the
    state, it returns normally; and when the body of its [try] block
    raises [e], the one thing [main] adds is the ERROR message carrying
    [e]. *)
Theorem main_absorbs_every_exception env net clock w :
  fst (main env net clock w) = Ok tt /\
  forall initial_url hook e w',
    IPO_NEWS_URL env = Some initial_url ->
    DISCORD_WEBHOOK_URL env = Some hook ->
    main_try net clock (feed_url initial_url) hook w = (Raise e, w') ->
    main env net clock w = (Ok tt, extend w' [EvLog ERROR (ErrorOccurred e)]).
Proof.
  split; [apply main_returns|].
  intros initial_url hook e w' Hurl Hhook Htry.
  unfold main. rewrite Hurl, Hhook. unfold try_except. cbn zeta.
  rewrite Htry. reflexivity.
Qed.

(** X5.  A feed that fails ends the run early.  On a status other than
    200 the body is never parsed: the run logs the status and that nothing
    was fetched.  When [requests.get] itself raises, the handler logs the
    exception.  Either way the state is not read, nothing is posted and no
    file changes. *)
Theorem feed_failure_ends_run env net clock w initial_url hook :
  IPO_NEWS_URL env = Some initial_url ->
  DISCORD_WEBHOOK_URL env = Some hook ->
  (forall resp, get_reply net (feed_url initial_url) = Ok resp ->
     status_code resp <> 200 ->
     run env net clock w
     = extend w [EvGet (feed_url initial_url);
                 EvLog ERROR (FetchFailed (status_code resp));
                 EvLog INFO NoNews]) /\
  (forall e, get_reply net (feed_url initial_url) = Raise e ->
     run env net clock w
     = extend w [EvGet (feed_url initial_url);
                 EvLog ERROR (ErrorOccurred e)]).
Proof.
  intros Hurl Hhook. split.
  - intros resp Hget Hcode. apply Z.eqb_neq in Hcode.
    assert (Hrun : run env net clock (mkWorld (files w) [])
                   = mkWorld (files w)
                       [EvGet (feed_url initial_url);
                        EvLog ERROR (FetchFailed (status_code resp));
                        EvLog INFO NoNews]).
    { replay. change (feed_is_usable JNull) with (@Ok bool false).
      crunch. reflexivity. }
    exact (proj1 (run_lift env net clock w _ _ Hrun)).
  - intros e Hget.
    assert (Hrun : run env net clock (mkWorld (files w) [])
                   = mkWorld (files w)
                       [EvGet (feed_url initial_url);
                        EvLog ERROR (ErrorOccurred e)])
      by (replay; reflexivity).
    exact (proj1 (run_lift env net clock w _ _ Hrun)).
Qed.

(** A run that ends in the handler: at the empty trace. *)
Lemma crash_keeps_state env net clock f :
  existsb is_crash (trace (run env net clock (mkWorld f []))) = true ->
  files (run env net clock (mkWorld f [])) = f /\
  existsb is_write (trace (run env net clock (mkWorld f []))) = false /\
  exists e,
    last (trace (run env net clock (mkWorld f []))) (EvGet "")
    = EvLog ERROR (ErrorOccurred e).
Proof.
  analyse; cbn; intro H; try discriminate H;
    (split; [reflexivity | split; [reflexivity | eexists; reflexivity]]).
Qed.

(** X6.  A run that ends in the exception handler of [main] never advances
    the state: no file changes, nothing is written, and the ERROR message
    of the handler is the last thing the run does. *)
Theorem crashed_run_keeps_state env net clock w :
  existsb is_crash (run_events env net clock w) = true ->
  files (run env net clock w) = files w /\
  existsb is_write (run_events env net clock w) = false /\
  exists e,
    last (run_events env net clock w) (EvGet "")
    = EvLog ERROR (ErrorOccurred e).
Proof.
  rewrite run_events_frame, run_files_frame. apply crash_keeps_state.
Qed.

Lemma embeds_from_length (clock : nat -> string) (l : list json) :
  forall i embeds,
    embeds_from clock i l = Ok embeds -> List.length embeds = List.length l.
Proof.
  induction l as [|ipo l IH]; intros i embeds H; cbn [embeds_from] in H.
  - injection H as <-. reflexivity.
  - destruct (embed_for (clock i) ipo) as [e|]; [|discriminate].
    cbn [rbind] in H.
    destruct (embeds_from clock (S i) l) as [es|] eqn:Hes; [|discriminate].
    cbn [rbind] in H. injection H as <-. cbn. f_equal. exact (IH _ _ Hes).
Qed.

Lemma create_discord_embed_shape (clock : nat -> string) (data : list json)
  (payload : json) :
  create_discord_embed clock data = Ok payload ->
  exists embeds,
    payload = payload_of embeds /\
    List.length embeds = Nat.min 3 (List.length data).
Proof.
  unfold create_discord_embed.
  destruct (embeds_from clock 0 (firstn 3 data)) as [es|] eqn:Hes;
    [|discriminate].
  cbn [rbind]. intros [= <-]. exists es. split; [reflexivity|].
  rewrite (embeds_from_length clock _ _ _ Hes). apply length_firstn.
Qed.

Lemma post_inversion env net clock f url body headers :
  In (EvPost url body headers) (trace (run env net clock (mkWorld f []))) ->
  DISCORD_WEBHOOK_URL env = Some url /\
  headers = [("Content-Type", "application/json")] /\
  exists new_data,
    new_data <> [] /\
    create_discord_embed clock (firstn 3 new_data) = Ok body.
Proof.
  analyse; cbn [In]; intro Hin;
    repeat match goal with
           | H : _ \/ _ |- _ => destruct H as [H | H]
           | H : False |- _ => contradiction H
           | H : _ = EvPost _ _ _ |- _ =>
               try discriminate H; injection H as <- <- <-
           end.
  all: split; [reflexivity | split; [reflexivity|]].
  all: match goal with
       | H : create_discord_embed _ (firstn 3 ?l) = Ok _ |- _ =>
           exists l; split; [discriminate | exact H]
       end.
Qed.

(** X8.  Whatever a run posts goes to the configured webhook, as JSON, and
    is a payload of [create_discord_embed] holding at least one and at
    most three embeds. *)
Theorem post_carries_one_to_three_embeds env net clock w url body headers :
  In (EvPost url body headers) (run_events env net clock w) ->
  DISCORD_WEBHOOK_URL env = Some url /\
  headers = [("Content-Type", "application/json")] /\
  exists embeds,
    body = payload_of embeds /\
    (1 <= List.length embeds <= 3)%nat.
Proof.
  rewrite run_events_frame. intro Hin.
  destruct (post_inversion env net clock (files w) url body headers Hin)
    as (Hhook & Hheaders & new_data & Hne & Hembed).
  split; [exact Hhook | split; [exact Hheaders|]].
  destruct (create_discord_embed_shape clock _ _ Hembed)
    as (embeds & -> & Hlen).
  exists embeds. split; [reflexivity|].
  rewrite length_firstn in Hlen.
  destruct new_data; [congruence|]. cbn [List.length] in Hlen. lia.
Qed.

Lemma traffic_of_run env net clock f :
  filter is_get (trace (run env net clock (mkWorld f [])))
  = match IPO_NEWS_URL env, DISCORD_WEBHOOK_URL env with
    | Some initial_url, Some _ => [EvGet (feed_url initial_url)]
    | _, _ => []
    end /\
  (List.length (filter is_post (trace (run env net clock (mkWorld f []))))
   <= 1)%nat /\
  (List.length (filter is_write (trace (run env net clock (mkWorld f []))))
   <= List.length
        (filter is_post (trace (run env net clock (mkWorld f [])))))%nat.
Proof. analyse; cbn; repeat split; lia. Qed.

(** X9.  A run issues exactly one GET, to the feed URL with the fixed
    paging parameters, when both settings are present and none otherwise;
    it posts at most once; and it writes the state at most once and only
    when it has posted. *)
Theorem traffic_of_a_run env net clock w :
  filter is_get (run_events env net clock w)
  = match IPO_NEWS_URL env, DISCORD_WEBHOOK_URL env with
    | Some initial_url, Some _ =>
        [EvGet (initial_url ++ "?&pageNo=1&itemsPerPage=10&pagePerDisplay=5")]
    | _, _ => []
    end /\
  (List.length (filter is_post (run_events env net clock w)) <= 1)%nat /\
  (List.length (filter is_write (run_events env net clock w))
   <= List.length (filter is_post (run_events env net clock w)))%nat.
Proof.
  rewrite run_events_frame. apply traffic_of_run.
Qed.

Lemma filterM_kept {A} (f : A -> result bool) (l : list A) :
  forall kept, filterM f l = Ok kept ->
  Forall (fun a => f a = Ok true) kept.
Proof.
  induction l as [|a l IH]; intros kept H; cbn [filterM] in H.
  - injection H as <-. constructor.
  - destruct (f a) as [keep|] eqn:Ha; [|discriminate]. cbn [rbind] in H.
    destruct (filterM f l) as [rest|]; [|discriminate]. cbn [rbind] in H.
    injection H as <-. destruct keep; auto.
Qed.

Lemma diff_step_new_ids (all_data last mx : json) (new_data : list json) :
  diff_step all_data last = Ok (mx, new_data) ->
  exists ids, mapM ipoId_of new_data = Ok ids.
Proof.
  unfold diff_step.
  destruct (py_iter all_data) as [items|]; [|discriminate]. cbn [rbind].
  destruct (mapM ipoId_of items) as [vals|]; [|discriminate]. cbn [rbind].
  destruct (match vals with [] => Ok (JInt 0) | _ :: _ => py_max vals end);
    [|discriminate].
  cbn [rbind].
  destruct (filterM _ items) as [kept|] eqn:Hkept; [|discriminate].
  cbn [rbind]. intros [= _ <-].
  apply filterM_kept in Hkept.
  induction Hkept as [|item kept Hitem _ (ids & IH)].
  - exists []. reflexivity.
  - destruct (ipoId_of item) as [v|] eqn:Hv; [|discriminate].
    exists (v :: ids). cbn [mapM]. rewrite Hv, IH. reflexivity.
Qed.

(** X7.  A delivery that fails in a way [send_discord_alert] absorbs does
    not stop the run: whether the webhook answers (with any status) or the
    request fails with [RequestError], a run that found new entries and
    rendered them goes on to log that the alert was sent and to persist
    the new maximum.  The entries of a failed delivery are not offered
    again. *)
Theorem absorbed_delivery_failure_still_persists
  env net clock w all_data last mx new_data hook payload :
  usable_fetch env net all_data ->
  DISCORD_WEBHOOK_URL env = Some hook ->
  fst (get_last_max_id default_state_file w) = Ok last ->
  diff_step all_data last = Ok (mx, new_data) ->
  new_data <> [] ->
  create_discord_embed clock (firstn 3 new_data) = Ok payload ->
  (exists r, post_reply net hook payload = Ok r) \/
  (exists target, post_reply net hook payload = Raise (RequestError target)) ->
  files (run env net clock w) default_state_file
  = Stored (JDict [("last_max_id", mx)]) /\
  In (EvPost hook payload [("Content-Type", "application/json")])
     (run_events env net clock w) /\
  In (EvLog INFO AlertSent) (run_events env net clock w) /\
  In (EvWrite default_state_file (JDict [("last_max_id", mx)]))
     (run_events env net clock w) /\
  existsb is_crash (run_events env net clock w) = false.
Proof.
  intros (initial_url & hook' & resp & ipo_news
          & Hurl & Hhook' & Hget & Hcode & Hbody & Husable & Hdata)
         Hhook Hlast Hdiff Hne Hembed Hpost.
  rewrite Hhook in Hhook'. injection Hhook' as <-.
  destruct (diff_step_len _ _ _ Hdiff) as (n & Hlen).
  destruct (diff_step_new_ids _ _ _ _ Hdiff) as (ids & Hids).
  destruct new_data as [|item rest]; [congruence|].
  apply Z.eqb_eq in Hcode.
  rewrite read_value_eq in Hlast.
  assert (Hrun : forall f,
            match f default_state_file with
            | Absent | Corrupt _ => Ok (JInt 0)
            | Stored data => dict_get data "last_max_id" (JInt 0)
            | Unreadable e =>
                if state_read_catches e then Ok (JInt 0) else Raise e
            end = Ok last ->
            exists evs,
              run env net clock (mkWorld f [])
              = mkWorld (set_file default_state_file
                           (Stored (JDict [("last_max_id", mx)])) f) evs /\
              In (EvPost hook payload [("Content-Type", "application/json")])
                 evs /\
              In (EvLog INFO AlertSent) evs /\
              In (EvWrite default_state_file (JDict [("last_max_id", mx)]))
                 evs /\
              existsb is_crash evs = false).
  { intros f Hf.
    destruct (f default_state_file) as [|msg|data|e0] eqn:Hfile;
      [ | | |destruct (state_read_catches e0) eqn:Hcatch; [|discriminate]];
      try (injection Hf as <-);
      (destruct Hpost as [(r & Hr) | (target & Hr)];
       [ destruct (raise_for_status r) as [[]|e] eqn:Hs;
         [|pose proof (raise_for_status_raise r e Hs); subst e] | ]);
      eexists; (split; [replay; reflexivity|]); cbn; auto 20. }
  destruct (Hrun (files w) Hlast) as (evs & Hr & H1 & H2 & H3 & H4).
  destruct (run_lift env net clock w _ _ Hr) as (Hw & Hevs).
  rewrite Hevs, Hw. cbn [files]. rewrite set_file_same. auto.
Qed.

(** ** The shape check *)


(** ** Rendering *)

Lemma format_number_ok_int_like (v r : json) :
  format_number v = Ok r -> int_like v = true.
Proof. destruct v; cbn; intro H; try discriminate; reflexivity. Qed.

Ltac embed_steps H :=
  repeat match type of H with
         | context [rbind (getitem ?i ?k) _] =>
             destruct (getitem i k) eqn:?; cbn [rbind] in H;
             [|discriminate H]
         | context [rbind (str_lower ?v) _] =>
             destruct v; cbn [str_lower rbind] in H; try discriminate H
         | context [rbind (str_capitalize ?v) _] =>
             destruct v; cbn [str_capitalize rbind] in H; try discriminate H
         | context [rbind (format_number ?v) _] =>
             let E := fresh "Hfmt" in
             destruct (format_number v) eqn:E; cbn [rbind] in H;
             [apply format_number_ok_int_like in E | discriminate H]
         end.

(** What a successful rendering of one entry tells. *)
Lemma embed_for_inv (stamp : string) (ipo e : json) :
  embed_for stamp ipo = Ok e ->
  well_formed_entry ipo = true /\
  exists s,
    getitem ipo "status" = Ok (JStr s) /\
    getitem e "color"
    = Ok (JInt (if String.eqb (lower s) "open"
                then COLOR_OPEN else COLOR_OTHER)) /\
    getitem e "timestamp" = Ok (JStr stamp).
Proof.
  intro H. unfold embed_for in H. embed_steps H.
  injection H as <-. split.
  - unfold well_formed_entry, has.
    repeat match goal with
           | E : getitem ipo ?k = Ok _ |- context [getitem ipo ?k] =>
               rewrite E
           end.
    cbn [is_str any_value].
    repeat match goal with
           | E : int_like _ = true |- _ => rewrite E; clear E
           end.
    reflexivity.
  - eexists. split; [reflexivity|]. split; reflexivity.
Qed.





Lemma to_lower_o c : Ascii.eqb (to_lower c) "o" = either "o" "O" c.
Proof. destruct c as [[] [] [] [] [] [] [] []]; reflexivity. Qed.
Lemma to_lower_p c : Ascii.eqb (to_lower c) "p" = either "p" "P" c.
Proof. destruct c as [[] [] [] [] [] [] [] []]; reflexivity. Qed.
Lemma to_lower_e c : Ascii.eqb (to_lower c) "e" = either "e" "E" c.
Proof. destruct c as [[] [] [] [] [] [] [] []]; reflexivity. Qed.
Lemma to_lower_n c : Ascii.eqb (to_lower c) "n" = either "n" "N" c.
Proof. destruct c as [[] [] [] [] [] [] [] []]; reflexivity. Qed.

Lemma lower_is_open (s : string) :
  String.eqb (lower s) "open" = is_open_variant s.
Proof.
  destruct s as [|c1 [|c2 [|c3 [|c4 [|c5 s]]]]];
    cbn [lower String.eqb is_open_variant];
    rewrite ?to_lower_o, ?to_lower_p, ?to_lower_e, ?to_lower_n;
    try reflexivity;
    repeat match goal with
           | |- context [either ?a ?b ?c] => destruct (either a b c)
           end; reflexivity.
Qed.

(** X12.  The colour of an embed is the "open" colour exactly when the
    status of its entry spells "open" in any mix of capitals and small
    letters, and the other colour for every other status, the empty one
    included. *)
Theorem embed_colour (stamp : string) (ipo e : json) :
  embed_for stamp ipo = Ok e ->
  exists s,
    getitem ipo "status" = Ok (JStr s) /\
    getitem e "color"
    = Ok (JInt (if is_open_variant s then 65280 else 16711680)).
Proof.
  intro H. destruct (embed_for_inv stamp ipo e H) as (_ & s & Hs & Hc & _).
  exists s. rewrite <- lower_is_open. auto.
Qed.

(** ** The diff step, beyond integer identifiers *)

Lemma py_gt_int_non_num (n : Z) (y : json) :
  as_num y = None -> py_gt (JInt n) y = Raise TypeError.
Proof. destruct y; cbn; intro H; try discriminate; reflexivity. Qed.

(** X13.  A stored watermark that is not a number (a string, [null], a
    list, an object) makes the comparison of the diff step raise
    [TypeError] for every non-empty feed with integer identifiers. *)
Theorem non_numeric_watermark_raises (S : list json) (ids : list Z)
  (last : json) :
  int_ids S ids -> S <> [] -> as_num last = None ->
  diff_step (JList S) last = Raise TypeError.
Proof.
  intros H Hne Hlast. unfold diff_step. cbn [py_iter rbind].
  rewrite (mapM_int_ids S ids H). cbn [rbind].
  destruct H as [|item n S ids Hid Hrest]; [congruence|].
  cbn [map py_max]. rewrite max_from_ints. cbn [rbind filterM].
  rewrite Hid. cbn [rbind]. rewrite (py_gt_int_non_num n last Hlast).
  reflexivity.
Qed.

Lemma mapM_missing_id (items : list json) :
  Forall (fun item => is_dict item = true) items ->
  existsb (fun item => negb (has any_value item "ipoId")) items = true ->
  mapM ipoId_of items = Raise (KeyError "ipoId").
Proof.
  induction 1 as [|item items Hd _ IH]; cbn [existsb mapM]; [discriminate|].
  unfold has, ipoId_of in *.
  destruct item as [| | | | |d]; try discriminate Hd. cbn [getitem].
  destruct (lookup "ipoId" d); cbn [negb orb any_value rbind];
    [|reflexivity].
  intro Hex. rewrite (IH Hex). reflexivity.
Qed.

(** X14.  One entry object without [ipoId] anywhere in the fetched list
    makes the diff step raise [KeyError('ipoId')], whatever the other
    entries and the watermark are. *)
Theorem entry_without_id_raises (items : list json) (last : json) :
  Forall (fun item => is_dict item = true) items ->
  existsb (fun item => negb (has any_value item "ipoId")) items = true ->
  diff_step (JList items) last = Raise (KeyError "ipoId").
Proof.
  intros Hd Hex. unfold diff_step. cbn [py_iter rbind].
  rewrite (mapM_missing_id items Hd Hex). reflexivity.
Qed.

(** X15.  Whenever the diff step succeeds against a numeric watermark
    [m], every fetched identifier is a number, the new entries are the
    fetched items whose identifier is above [m], in order, and each of
    them has its identifier in the range from above [m] up to the
    computed maximum: what is notified is covered by what is persisted. *)
Theorem new_entries_between (all_data last mx : json)
  (new_data : list json) (m : Z) :
  as_num last = Some m ->
  diff_step all_data last = Ok (mx, new_data) ->
  exists items nums,
    py_iter all_data = Ok items /\
    numbered items nums /\
    new_data = filter (num_above m) items /\
    (items <> [] ->
     exists top, as_num mx = Some top /\ is_max_of top nums /\
       Forall (fun item => exists n, id_num item = Some n /\ m < n <= top)
              new_data).
Proof.
  intros Hm H. unfold diff_step in H.
  destruct (py_iter all_data) as [items|]; [|discriminate].
  cbn [rbind] in H.
  destruct (mapM ipoId_of items) as [vals|] eqn:Hvals; [|discriminate].
  cbn [rbind] in H.
  destruct (match vals with [] => Ok (JInt 0) | _ :: _ => py_max vals end)
    as [mx0|] eqn:Hmax; [|discriminate].
  cbn [rbind] in H.
  destruct (filterM _ items) as [kept|] eqn:Hkept; [|discriminate].
  cbn [rbind] in H. injection H as -> ->.
  destruct (filterM_numbered items last m new_data Hm Hkept)
    as (nums & Hnums & ->).
  exists items, nums. repeat split; auto.
  intro Hne.
  destruct (numbered_mapM items nums Hnums) as (vals' & Hvals' & Hnum).
  rewrite Hvals in Hvals'. injection Hvals' as <-.
  destruct Hnum as [|v n vals nums Hv Hrest].
  { inversion Hnums; subst. congruence. }
  cbn [py_max] in Hmax.
  destruct (max_from_num vals nums Hrest v n Hv) as (mx' & Hmx' & Hval).
  rewrite Hmax in Hmx'. injection Hmx' as <-.
  pose proof (fold_max_is_max nums n) as Htop.
  exists (fold_left Z.max nums n). split; [exact Hval | split; [exact Htop|]].
  destruct Htop as (_ & Hall).
  apply Forall_forall. intros item Hin.
  apply filter_In in Hin as (Hin & Habove).
  unfold num_above in Habove.
  destruct (id_num item) as [k|] eqn:Hk; [|discriminate].
  exists k. split; [reflexivity|]. apply Z.ltb_lt in Habove.
  split; [exact Habove|].
  assert (Hk' : In k (n :: nums)).
  { clear - Hnums Hin Hk. induction Hnums as [|x y xs ys Hxy _ IH].
    - contradiction.
    - destruct Hin as [-> | Hin].
      + rewrite Hk in Hxy. injection Hxy as ->. now left.
      + right. auto. }
  rewrite Forall_forall in Hall. exact (Hall k Hk').
Qed.

(** ** Delivery, beyond the absorbed failures *)

(** X16.  [send_discord_alert] raises exactly when the POST raises an
    exception that is neither [HTTPStatusError] nor [RequestError], and it
    then raises that exception; in every other case it returns normally.
    The request has been issued in either case. *)
Theorem send_discord_alert_raises_iff (net : network) (payload : json)
  (url : string) (w : world) (e : exn) :
  (fst (send_discord_alert net payload url w) = Raise e <->
   post_reply net url payload = Raise e /\ is_absorbed e = false) /\
  In (EvPost url payload [("Content-Type", "application/json")])
     (trace (snd (send_discord_alert net payload url w))).
Proof.
  unfold send_discord_alert, httpx_post, try_except, bind, lift, log, emit.
  cbn.
  destruct (post_reply net url payload) as [r|e'] eqn:Hr.
  - destruct (raise_for_status r) as [[]|e''] eqn:Hs.
    + split; [split; [discriminate | intros [H _]; discriminate]|].
      apply in_or_app. right. now left.
    + apply raise_for_status_raise in Hs. subst e''. cbn. split.
      * split; [discriminate | intros [H _]; discriminate].
      * apply in_or_app. left. apply in_or_app. right. now left.
  - destruct e'; cbn;
      (split;
       [ split;
         [ intros [= <-]; split; reflexivity
         | intros [[= <-] Ha]; first [reflexivity | discriminate Ha] ]
       | try (apply in_or_app; right; now left);
         try (apply in_or_app; left; apply in_or_app; right; now left) ]).
Qed.

(** ** Number formatting, beyond the grouping *)

Lemma digit_not_space (c : ascii) : is_digit c = true -> is_space c = false.
Proof. destruct c as [[] [] [] [] [] [] [] []]; try discriminate; reflexivity. Qed.

Lemma strip_id (l : list ascii) :
  l <> [] ->
  is_space (hd " "%char l) = false ->
  is_space (last l " "%char) = false ->
  strip l = l.
Proof.
  intros Hne Hhd Hlast. unfold strip.
  assert (Hfront : drop_spaces l = l).
  { destruct l as [|c l]; [congruence|]. cbn in *. now rewrite Hhd. }
  rewrite Hfront.
  assert (Hback : drop_spaces (rev l) = rev l).
  { rewrite <- hd_rev_last in Hlast.
    destruct (rev l) as [|c t]; [reflexivity|]. cbn in *. now rewrite Hlast. }
  rewrite Hback. apply rev_involutive.
Qed.

Lemma last_in {A} (l : list A) (d : A) : l <> [] -> In (last l d) l.
Proof.
  induction l as [|a l IH]; [congruence|]. intros _.
  destruct l as [|b l]; [now left|].
  right. apply IH. discriminate.
Qed.

Lemma utf8_decode_ascii (l : list ascii) :
  Forall (fun c => (N_of_ascii c < 127)%N) l ->
  map int_char (utf8_decode l) = l.
Proof.
  induction 1 as [|c l Hc Hl IH]; [reflexivity|].
  cbn [utf8_decode].
  replace (N_of_ascii c <? 128)%N with true
    by (symmetry; apply N.ltb_lt; lia).
  cbn [map]. rewrite IH. unfold int_char.
  replace (N_of_ascii c <? 127)%N with true
    by (symmetry; now apply N.ltb_lt).
  now rewrite ascii_N_embedding.
Qed.

Lemma digit_is_ascii (c : ascii) :
  is_digit c = true -> (N_of_ascii c < 127)%N.
Proof.
  unfold is_digit, nat_of_ascii. intro H.
  apply andb_true_iff in H as [_ H]. apply Nat.leb_le in H. lia.
Qed.

Lemma digit_not_sign (c : ascii) :
  is_digit c = true -> Ascii.eqb c "-" = false /\ Ascii.eqb c "+" = false.
Proof.
  intro H. split; apply Ascii.eqb_neq; intros ->; discriminate.
Qed.

(** [int] on an optional minus sign followed by ASCII characters that start
    with a digit and do not end with a space. *)
Lemma py_int_signed (neg : bool) (body : list ascii) :
  body <> [] ->
  Forall (fun c => (N_of_ascii c < 127)%N) body ->
  is_digit (hd " "%char body) = true ->
  is_space (last body " "%char) = false ->
  py_int (string_of_list_ascii ((if neg then ["-"%char] else []) ++ body))
  = if count_digits body <=? int_max_str_digits
    then if neg then option_map Z.opp (parse_digits 0 false body)
         else parse_digits 0 false body
    else None.
Proof.
  intros Hne Hascii Hhd Hlast. unfold py_int.
  rewrite list_ascii_of_string_of_list_ascii, utf8_decode_ascii
    by (destruct neg; cbn [app]; [constructor; [reflexivity|] |]; assumption).
  assert (Hcount : count_digits ((if neg then ["-"%char] else []) ++ body)
                   = count_digits body) by (destruct neg; reflexivity).
  rewrite Hcount.
  destruct (count_digits body <=? int_max_str_digits); [|reflexivity].
  unfold int_literal.
  destruct body as [|c body]; [congruence|]. cbn [hd] in Hhd.
  rewrite strip_id.
  - destruct neg; cbn [app]; [reflexivity|].
    destruct (digit_not_sign c Hhd) as [-> ->]. reflexivity.
  - destruct neg; discriminate.
  - destruct neg; cbn; [reflexivity | now apply digit_not_space].
  - destruct neg; cbn [app]; [|exact Hlast].
    change (last ("-"%char :: c :: body) " "%char)
      with (last (c :: body) " "%char).
    exact Hlast.
Qed.

Lemma str_of_Z_signed (n : Z) :
  str_of_Z n
  = string_of_list_ascii ((if n <? 0 then ["-"%char] else []) ++ digits_of n).
Proof.
  unfold digits_of, str_of_Z.
  destruct n as [|p|p]; cbn [Z.ltb Z.compare Z.abs app Z.to_int
                              NilZero.string_of_int].
  - reflexivity.
  - now rewrite string_of_list_ascii_of_string.
  - cbn [string_of_list_ascii]. now rewrite string_of_list_ascii_of_string.
Qed.

Lemma format_comma_signed (n : Z) :
  format_comma n
  = string_of_list_ascii
      ((if n <? 0 then ["-"%char] else []) ++ group3 (digits_of n)).
Proof. unfold format_comma. destruct (n <? 0); reflexivity. Qed.

Lemma digits_of_ends (n : Z) :
  is_digit (hd " "%char (digits_of n)) = true /\
  is_digit (last (digits_of n) " "%char) = true.
Proof.
  destruct (digits_of_spec n) as (Hne & Hdig & _).
  rewrite Forall_forall in Hdig. split.
  - destruct (digits_of n) as [|c l]; [congruence|]. apply Hdig. now left.
  - apply Hdig. now apply last_in.
Qed.

Lemma signed_value (n : Z) :
  (if n <? 0 then option_map Z.opp (Some (Z.abs n)) else Some (Z.abs n))
  = Some n.
Proof. destruct (Z.ltb_spec n 0); cbn; f_equal; lia. Qed.

Lemma digits_of_ascii (n : Z) :
  Forall (fun c => (N_of_ascii c < 127)%N) (digits_of n).
Proof.
  destruct (digits_of_spec n) as (_ & Hdig & _).
  eapply Forall_impl; [|exact Hdig]. apply digit_is_ascii.
Qed.

(** [int(str(n)) == n], as long as [str(n)] is within the bound on the
    digits. *)
Lemma py_int_str_of_Z (n : Z) :
  Z.of_nat (List.length (digits_of n)) <= int_max_str_digits ->
  py_int (str_of_Z n) = Some n.
Proof.
  intro Hb.
  destruct (digits_of_spec n) as (Hne & Hdig & Hval).
  destruct (digits_of_ends n) as (Hhd & Hlast).
  rewrite str_of_Z_signed, py_int_signed, Hval, count_digits_all;
    auto using digit_not_space, digits_of_ascii.
  destruct (Z.leb_spec (Z.of_nat (List.length (digits_of n)))
                       int_max_str_digits); [apply signed_value | lia].
Qed.

(** X17.  An amount that arrives as the decimal text of an integer is
    rendered exactly like the same amount arriving as a JSON integer, for
    every integer the interpreter converts to text (at most
    [int_max_str_digits] digits). *)
Theorem format_number_text_like_int (n : Z) :
  Z.of_nat (List.length (digits_of n)) <= int_max_str_digits ->
  format_number (JStr (str_of_Z n)) = format_number (JInt n) /\
  format_number (JInt n) = Ok (JStr (format_comma n)).
Proof.
  intro Hb. cbn [format_number]. rewrite (py_int_str_of_Z n Hb).
  unfold py_format_comma.
  destruct (Z.leb_spec (Z.of_nat (List.length (digits_of n)))
                       int_max_str_digits); [split; reflexivity | lia].
Qed.

Lemma insert_sep_short (l : list ascii) :
  (List.length l <= 3)%nat -> insert_sep 3 l = l.
Proof.
  destruct l as [|a [|b [|c [|d l]]]]; cbn; intro H; try reflexivity; lia.
Qed.

Lemma parse_digits_rejects (c : ascii) (l : list ascii) : forall acc b,
  In c l -> is_digit c = false -> Ascii.eqb c "_" = false ->
  parse_digits acc b l = None.
Proof.
  induction l as [|x l IH]; intros acc b Hin Hd Hu; [contradiction|].
  cbn [parse_digits]. destruct Hin as [-> | Hin].
  - rewrite Hd, Hu. reflexivity.
  - destruct (is_digit x); [now apply IH|].
    destruct (Ascii.eqb x "_" && b); [now apply IH | reflexivity].
Qed.

Lemma insert_sep_members (l : list ascii) : forall k c,
  In c (insert_sep k l) -> c = ","%char \/ In c l.
Proof.
  induction l as [|d l IH]; intros k c; [contradiction|].
  destruct k; cbn [insert_sep In].
  - intros [<- | [<- | H]]; auto. destruct (IH _ _ H); auto.
  - intros [<- | H]; auto. destruct (IH _ _ H); auto.
Qed.

Lemma group3_ends (ds : list ascii) :
  ds <> [] -> Forall (fun c => is_digit c = true) ds ->
  group3 ds <> [] /\
  is_digit (hd " "%char (group3 ds)) = true /\
  is_digit (last (group3 ds) " "%char) = true.
Proof.
  intros Hne Hdig.
  assert (Hplain : Forall plain ds)
    by (eapply Forall_impl; [|exact Hdig]; apply digit_is_plain).
  destruct (group3_grouped ds Hne Hplain) as (Hstrip & _ & Hhd).
  assert (Hne3 : group3 ds <> []).
  { intro E. rewrite E in Hstrip. cbn in Hstrip. congruence. }
  rewrite Forall_forall in Hdig. repeat split; [exact Hne3| |].
  - destruct (group3 ds) as [|c out] eqn:E; [congruence|]. cbn [hd] in *.
    assert (Hin : In c (group3 ds)) by (rewrite E; now left).
    unfold group3 in Hin. apply in_rev in Hin.
    apply insert_sep_members in Hin as [-> | Hin].
    + exfalso. apply Hhd. change (hd "0"%char (","%char :: out)) with ","%char.
      reflexivity.
    + apply Hdig. now apply in_rev.
  - unfold group3. rewrite <- hd_rev_last, rev_involutive.
    destruct (rev ds) as [|c r] eqn:E.
    + apply (f_equal (@rev ascii)) in E. rewrite rev_involutive in E.
      cbn in E. congruence.
    + cbn [insert_sep hd]. apply Hdig. apply in_rev. rewrite E. now left.
Qed.

Lemma group3_long_has_comma (ds : list ascii) :
  Forall (fun c => is_digit c = true) ds -> (3 < List.length ds)%nat ->
  In ","%char (group3 ds).
Proof.
  intros Hdig Hlen.
  assert (Hne : ds <> []) by (destruct ds; [cbn in Hlen; lia | discriminate]).
  assert (Hplain : Forall plain ds)
    by (eapply Forall_impl; [|exact Hdig]; apply digit_is_plain).
  destruct (group3_grouped ds Hne Hplain) as (Hstrip & Hpos & _).
  assert (Hout : (3 < List.length (group3 ds))%nat).
  { pose proof (filter_length_le (fun c => negb (is_comma c)) (group3 ds)).
    rewrite Hstrip in H. lia. }
  apply in_rev. rewrite <- (proj2 (Hpos 3%nat Hout) eq_refl).
  apply nth_In. now rewrite length_rev.
Qed.

Lemma group3_members (ds : list ascii) (c : ascii) :
  In c (group3 ds) -> c = ","%char \/ In c ds.
Proof.
  unfold group3. intro H. apply in_rev in H.
  apply insert_sep_members in H as [-> | H]; [now left|].
  right. now apply in_rev.
Qed.

Lemma group3_ascii (ds : list ascii) :
  Forall (fun c => is_digit c = true) ds ->
  Forall (fun c => (N_of_ascii c < 127)%N) (group3 ds).
Proof.
  intro Hdig. rewrite Forall_forall in *. intros c Hc.
  apply group3_members in Hc as [-> | Hc]; [reflexivity|].
  apply digit_is_ascii. auto.
Qed.

Lemma small_number_formats (n : Z) :
  (List.length (digits_of n) <= 3)%nat ->
  py_format_comma n = Some (format_comma n).
Proof.
  intro H. unfold py_format_comma.
  destruct (Z.leb_spec (Z.of_nat (List.length (digits_of n)))
                       int_max_str_digits) as [|Hgt]; [reflexivity|].
  unfold int_max_str_digits in Hgt. lia.
Qed.

Lemma py_int_format_comma (n : Z) :
  py_int (format_comma n)
  = if (List.length (digits_of n) <=? 3)%nat then Some n else None.
Proof.
  destruct (digits_of_spec n) as (Hne & Hdig & Hval).
  destruct (group3_ends (digits_of n) Hne Hdig) as (Hne3 & Hhd & Hlast).
  rewrite format_comma_signed, py_int_signed;
    auto using digit_not_space, group3_ascii.
  destruct (Nat.leb_spec (List.length (digits_of n)) 3) as [Hshort | Hlong].
  - unfold group3. rewrite insert_sep_short by (now rewrite length_rev).
    rewrite rev_involutive, Hval, count_digits_all by assumption.
    destruct (Z.leb_spec (Z.of_nat (List.length (digits_of n)))
                         int_max_str_digits) as [|Hgt];
      [apply signed_value|].
    unfold int_max_str_digits in Hgt. lia.
  - rewrite (parse_digits_rejects ","%char);
      [now destruct (n <? 0), (_ <=? _) | | reflexivity | reflexivity].
    now apply group3_long_has_comma.
Qed.

(** X18.  Formatting is idempotent: whatever [format_number] returns, it
    returns unchanged when it is given it again, so an amount that already
    carries its commas is never regrouped or damaged. *)
Theorem format_number_idempotent (v r : json) :
  format_number v = Ok r -> format_number r = Ok r.
Proof.
  assert (Hcomma : forall n,
            format_number (JStr (format_comma n)) = Ok (JStr (format_comma n))).
  { intro n. cbn [format_number]. rewrite py_int_format_comma.
    destruct (Nat.leb_spec (List.length (digits_of n)) 3) as [Hshort|];
      [|reflexivity].
    now rewrite small_number_formats. }
  assert (Hint : forall n x,
            match py_format_comma n with
            | Some text => Ok (JStr text)
            | None => Ok x
            end = Ok r ->
            (r = x /\ py_format_comma n = None) \/ r = JStr (format_comma n)).
  { intros n x. unfold py_format_comma.
    destruct (_ <=? _); intros [= <-]; auto. }
  destruct v; cbn [format_number]; try discriminate.
  - intro H. apply Hint in H as [[-> Hn] | ->]; [|apply Hcomma].
    cbn [format_number]. now rewrite Hn.
  - intro H. apply Hint in H as [[-> Hn] | ->]; [|apply Hcomma].
    cbn [format_number]. now rewrite Hn.
  - destruct (py_int s) as [n|] eqn:Hs.
    + intro H. apply Hint in H as [[-> Hn] | ->]; [|apply Hcomma].
      cbn [format_number]. now rewrite Hs, Hn.
    + intros [= <-]. cbn [format_number]. now rewrite Hs.
Qed.

(** ** Instances of the further properties *)

Lemma non_object_state_blocks_run_witness :
  get_last_max_id default_state_file (world_with list_state)
  = (Raise (AttributeError "get"), world_with list_state) /\
  files (run sample_env (sample_net (sample_feed three_entries) no_content)
           sample_clock (world_with list_state))
  = files (world_with list_state) /\
  In (EvLog ERROR (ErrorOccurred (AttributeError "get")))
     (run_events sample_env (sample_net (sample_feed three_entries) no_content)
        sample_clock (world_with list_state)) /\
  existsb is_post
    (run_events sample_env (sample_net (sample_feed three_entries) no_content)
       sample_clock (world_with list_state)) = false /\
  existsb is_write
    (run_events sample_env (sample_net (sample_feed three_entries) no_content)
       sample_clock (world_with list_state)) = false.
Proof.
  apply (non_object_state_blocks_run sample_env
           (sample_net (sample_feed three_entries) no_content) sample_clock
           (world_with list_state) (JList three_entries) 3 (JList [JInt 1])).
  - reflexivity.
  - reflexivity.
  - exists "https://feed.example/ipo", "https://hook.example/w",
      (mkResponse 200 "" (Ok (sample_feed three_entries))),
      (sample_feed three_entries).
    repeat split; reflexivity.
  - reflexivity.
Defined.

Lemma main_absorbs_every_exception_witness :
  main sample_env (sample_net (sample_feed three_entries) no_content)
       sample_clock (world_with list_state)
  = (Ok tt,
     extend
       (snd (main_try (sample_net (sample_feed three_entries) no_content)
               sample_clock (feed_url "https://feed.example/ipo")
               "https://hook.example/w" (world_with list_state)))
       [EvLog ERROR (ErrorOccurred (AttributeError "get"))]).
Proof.
  apply (proj2 (main_absorbs_every_exception sample_env
                  (sample_net (sample_feed three_entries) no_content)
                  sample_clock (world_with list_state))
           "https://feed.example/ipo" "https://hook.example/w").
  - reflexivity.
  - reflexivity.
  - vm_compute. reflexivity.
Defined.

Lemma feed_failure_ends_run_witness :
  run sample_env
    (mkNetwork (fun _ => Ok (mkResponse 500 "" (Ok (sample_feed three_entries))))
               (fun _ _ => no_content))
    sample_clock (world_with Absent)
  = extend (world_with Absent)
      [EvGet (feed_url "https://feed.example/ipo");
       EvLog ERROR (FetchFailed 500); EvLog INFO NoNews] /\
  run sample_env
    (mkNetwork (fun _ => Raise (OtherError "ConnectionError"))
               (fun _ _ => no_content))
    sample_clock (world_with Absent)
  = extend (world_with Absent)
      [EvGet (feed_url "https://feed.example/ipo");
       EvLog ERROR (ErrorOccurred (OtherError "ConnectionError"))].
Proof.
  split.
  - apply (proj1 (feed_failure_ends_run sample_env
             (mkNetwork
                (fun _ => Ok (mkResponse 500 "" (Ok (sample_feed three_entries))))
                (fun _ _ => no_content))
             sample_clock (world_with Absent)
             "https://feed.example/ipo" "https://hook.example/w"
             eq_refl eq_refl)
             (mkResponse 500 "" (Ok (sample_feed three_entries)))).
    + reflexivity.
    + simpl. lia.
  - apply (proj2 (feed_failure_ends_run sample_env
             (mkNetwork (fun _ => Raise (OtherError "ConnectionError"))
                        (fun _ _ => no_content))
             sample_clock (world_with Absent)
             "https://feed.example/ipo" "https://hook.example/w"
             eq_refl eq_refl)).
    reflexivity.
Defined.

Lemma crashed_run_keeps_state_witness :
  files (run sample_env
           (sample_net (sample_feed [null_status_entry]) no_content)
           sample_clock (world_with (stored_watermark 100)))
  = files (world_with (stored_watermark 100)) /\
  existsb is_write
    (run_events sample_env
       (sample_net (sample_feed [null_status_entry]) no_content)
       sample_clock (world_with (stored_watermark 100))) = false /\
  exists e,
    last (run_events sample_env
            (sample_net (sample_feed [null_status_entry]) no_content)
            sample_clock (world_with (stored_watermark 100))) (EvGet "")
    = EvLog ERROR (ErrorOccurred e).
Proof.
  apply (crashed_run_keeps_state sample_env
           (sample_net (sample_feed [null_status_entry]) no_content)
           sample_clock (world_with (stored_watermark 100))).
  vm_compute. reflexivity.
Defined.

Lemma absorbed_delivery_failure_still_persists_witness :
  files (run sample_env (sample_net (sample_feed three_entries) not_found)
           sample_clock (world_with (stored_watermark 100)))
        default_state_file
  = Stored (JDict [("last_max_id", JInt 103)]) /\
  In (EvPost "https://hook.example/w" three_embeds_payload
             [("Content-Type", "application/json")])
     (run_events sample_env (sample_net (sample_feed three_entries) not_found)
        sample_clock (world_with (stored_watermark 100))) /\
  In (EvLog INFO AlertSent)
     (run_events sample_env (sample_net (sample_feed three_entries) not_found)
        sample_clock (world_with (stored_watermark 100))) /\
  In (EvWrite default_state_file (JDict [("last_max_id", JInt 103)]))
     (run_events sample_env (sample_net (sample_feed three_entries) not_found)
        sample_clock (world_with (stored_watermark 100))) /\
  existsb is_crash
    (run_events sample_env (sample_net (sample_feed three_entries) not_found)
       sample_clock (world_with (stored_watermark 100))) = false.
Proof.
  apply (absorbed_delivery_failure_still_persists sample_env
           (sample_net (sample_feed three_entries) not_found) sample_clock
           (world_with (stored_watermark 100)) (JList three_entries)
           (JInt 100) (JInt 103) three_entries "https://hook.example/w"
           three_embeds_payload).
  - exists "https://feed.example/ipo", "https://hook.example/w",
      (mkResponse 200 "" (Ok (sample_feed three_entries))),
      (sample_feed three_entries).
    repeat split; reflexivity.
  - reflexivity.
  - reflexivity.
  - vm_compute. reflexivity.
  - discriminate.
  - vm_compute. reflexivity.
  - left. exists (mkResponse 404 "Unknown Webhook" (Ok JNull)). reflexivity.
Defined.

Lemma post_carries_one_to_three_embeds_witness :
  DISCORD_WEBHOOK_URL sample_env = Some "https://hook.example/w" /\
  [("Content-Type", "application/json")]
  = [("Content-Type", "application/json")] /\
  exists embeds,
    three_embeds_payload = payload_of embeds /\
    (1 <= List.length embeds <= 3)%nat.
Proof.
  apply (post_carries_one_to_three_embeds sample_env
           (sample_net (sample_feed (three_entries ++ [open_entry 104]))
                       no_content)
           sample_clock (world_with (stored_watermark 100))
           "https://hook.example/w" three_embeds_payload
           [("Content-Type", "application/json")]).
  vm_compute. do 4 right. left. reflexivity.
Defined.



Lemma embed_colour_witness :
  exists s,
    getitem (sample_entry 101 (JStr "OpEn")) "status" = Ok (JStr s) /\
    getitem (sample_embed (JStr "OpEn")) "color"
    = Ok (JInt (if is_open_variant s then 65280 else 16711680)).
Proof.
  apply (embed_colour (sample_clock 0) (sample_entry 101 (JStr "OpEn"))
           (sample_embed (JStr "OpEn"))).
  vm_compute. reflexivity.
Defined.

Lemma non_numeric_watermark_raises_witness :
  diff_step (JList three_entries) (JStr "103") = Raise TypeError.
Proof.
  apply (non_numeric_watermark_raises three_entries [101; 102; 103]
           (JStr "103")).
  - repeat constructor.
  - discriminate.
  - reflexivity.
Defined.

Lemma entry_without_id_raises_witness :
  diff_step (JList [open_entry 101; JDict [("companyName", JStr "Acme")]])
            (JInt 0)
  = Raise (KeyError "ipoId").
Proof.
  apply (entry_without_id_raises
           [open_entry 101; JDict [("companyName", JStr "Acme")]] (JInt 0)).
  - repeat constructor.
  - reflexivity.
Defined.

Lemma new_entries_between_witness :
  exists items nums,
    py_iter (JList three_entries) = Ok items /\
    numbered items nums /\
    [open_entry 102; open_entry 103] = filter (num_above 101) items /\
    (items <> [] ->
     exists top, as_num (JInt 103) = Some top /\ is_max_of top nums /\
       Forall (fun item => exists n, id_num item = Some n /\ 101 < n <= top)
              [open_entry 102; open_entry 103]).
Proof.
  apply (new_entries_between (JList three_entries) (JInt 101) (JInt 103)
           [open_entry 102; open_entry 103] 101).
  - reflexivity.
  - vm_compute. reflexivity.
Defined.

Lemma send_discord_alert_raises_iff_witness :
  fst (send_discord_alert
         (sample_net JNull (Raise (OtherError "InvalidURL")))
         (payload_of []) "https://hook example/w" (world_with Absent))
  = Raise (OtherError "InvalidURL").
Proof.
  apply (proj2 (proj1 (send_discord_alert_raises_iff
                         (sample_net JNull (Raise (OtherError "InvalidURL")))
                         (payload_of []) "https://hook example/w"
                         (world_with Absent) (OtherError "InvalidURL")))).
  split; reflexivity.
Defined.

Lemma format_number_text_like_int_witness :
  Z.of_nat (List.length (digits_of 1234567)) <= int_max_str_digits /\
  format_number (JStr (str_of_Z 1234567)) = format_number (JInt 1234567) /\
  format_number (JInt 1234567) = Ok (JStr (format_comma 1234567)).
Proof.
  split.
  - apply Z.leb_le. vm_compute. reflexivity.
  - apply (format_number_text_like_int 1234567).
    apply Z.leb_le. vm_compute. reflexivity.
Defined.

Lemma format_number_idempotent_witness :
  format_number (JStr "1,234,567") = Ok (JStr "1,234,567").
Proof.
  apply (format_number_idempotent (JStr "1234567") (JStr "1,234,567")).
  reflexivity.
Defined.
